(** * Local preview servers: [preview-server.py] and [aws-version/preview-aws.py]

    A shallow embedding of the two preview scripts and of the part of the
    Python standard library they drive ([http.server], [socketserver],
    [os.path], [webbrowser]), followed by the properties of the scripts.

    Layout:
    - [Py]           strings, exceptions and the result type of fallible code;
    - [OS]           the process environment: working directory, file
                     system, listening sockets, browser launcher, console;
    - [HttpServer]   [BaseHTTPRequestHandler] / [SimpleHTTPRequestHandler];
    - [SocketServer] [TCPServer] and its serve loop;
    - [PreviewServer], [PreviewAws]  the two scripts;
    - the theorems. *)

From Stdlib Require Import String Ascii List Bool Arith ZArith Lia DecimalString.
Import ListNotations.
Set Warnings "-abstract-large-number".
Local Open Scope list_scope.
Local Open Scope string_scope.

(* ===================================================================== *)
(** * Python values used by the scripts *)
(* ===================================================================== *)

Module Py.

(** Exceptions that can reach the scripts' own [try] statements. A bare
    [except:] catches every constructor; [except KeyboardInterrupt:] only
    the first one; the library's [except OSError:] only the second one.
    [UnicodeEncodeError] is a [ValueError]. *)
Inductive exn : Type :=
| KeyboardInterrupt
| OSError (what : string)
| ValueError (what : string)
| AttributeError (what : string)
| OtherError (what : string).

Inductive result (A : Type) : Type :=
| Ok (a : A)
| Raise (e : exn).
Arguments Ok {A} a.
Arguments Raise {A} e.

Definition CR : string := String "013" EmptyString.
Definition LF : string := String "010" EmptyString.
Definition CRLF : string := CR ++ LF.

(** [str(n)] for a non-negative integer. *)
Definition str (n : nat) : string := NilZero.string_of_uint (Nat.to_uint n).

(** [b"".join(parts)] *)
Definition join (parts : list string) : string :=
  fold_right String.append EmptyString parts.

(** [c.lower()] on one ASCII character. *)
Definition lower_ascii (c : ascii) : ascii :=
  let n := nat_of_ascii c in
  if (Nat.leb 65 n && Nat.leb n 90)%bool then ascii_of_nat (n + 32) else c.

(** [s.lower()] (ASCII letters; header keywords are ASCII). *)
Fixpoint lower (s : string) : string :=
  match s with
  | EmptyString => EmptyString
  | String c s' => String (lower_ascii c) (lower s')
  end.

(** [s.startswith(p)] *)
Definition startswith (s p : string) : bool := String.prefix p s.

(** [s.endswith("/")] *)
Fixpoint endswith_slash (s : string) : bool :=
  match s with
  | EmptyString => false
  | String c EmptyString => Ascii.eqb c "/"
  | String _ s' => endswith_slash s'
  end.

(** ['/' in s] *)
Fixpoint has_slash (s : string) : bool :=
  match s with
  | EmptyString => false
  | String c s' => Ascii.eqb c "/" || has_slash s'
  end.

(** [s.lstrip('/')] *)
Fixpoint lstrip_slash (s : string) : string :=
  match s with
  | String c s' => if Ascii.eqb c "/" then lstrip_slash s' else s
  | EmptyString => EmptyString
  end.

(** Characters on which [str.split()] splits, for text decoded as
    iso-8859-1 (every byte is one character). *)
Definition isspace (c : ascii) : bool :=
  let n := nat_of_ascii c in
  ((Nat.leb 9 n && Nat.leb n 13) || (Nat.leb 28 n && Nat.leb n 32)
   || Nat.eqb n 133 || Nat.eqb n 160)%bool.

(** [s.split()]: maximal runs of non-whitespace characters. [cur] is the
    word being read, in reverse. *)
Fixpoint split_ws_aux (s : string) (cur : list ascii) : list string :=
  let flush (rest : list string) :=
    match cur with
    | [] => rest
    | _ => string_of_list_ascii (rev cur) :: rest
    end in
  match s with
  | EmptyString => flush []
  | String c s' =>
      if isspace c then flush (split_ws_aux s' [])
      else split_ws_aux s' (c :: cur)
  end.

Definition split_ws (s : string) : list string := split_ws_aux s [].

(** [s.split(sep)] for a one-character separator: never empty, keeps empty
    fields. *)
Fixpoint split_on_aux (sep : ascii) (s : string) (cur : list ascii)
  : list string :=
  match s with
  | EmptyString => [string_of_list_ascii (rev cur)]
  | String c s' =>
      if Ascii.eqb c sep
      then string_of_list_ascii (rev cur) :: split_on_aux sep s' []
      else split_on_aux sep s' (c :: cur)
  end.

Definition split_on (sep : ascii) (s : string) : list string :=
  split_on_aux sep s [].

(** [s.rstrip('\r\n')] *)
Fixpoint rstrip_crlf (s : string) : string :=
  match s with
  | EmptyString => EmptyString
  | String c s' =>
      let r := rstrip_crlf s' in
      if (String.eqb r "" && (Ascii.eqb c "013" || Ascii.eqb c "010"))%bool
      then EmptyString else String c r
  end.

(** [s.split('/', 1)[1]] for a string that contains a slash. *)
Fixpoint after_slash (s : string) : string :=
  match s with
  | EmptyString => EmptyString
  | String c s' => if Ascii.eqb c "/" then s' else after_slash s'
  end.

(** [sep.join(parts)] *)
Definition join_with (sep : string) (parts : list string) : string :=
  String.concat sep parts.

(** ['\0' in s] *)
Fixpoint has_nul (s : string) : bool :=
  match s with
  | EmptyString => false
  | String c s' => Ascii.eqb c "000" || has_nul s'
  end.

(** [s.isascii()], on the bytes of [s]. *)
Fixpoint isascii (s : string) : bool :=
  match s with
  | EmptyString => true
  | String c s' => Nat.ltb (nat_of_ascii c) 128 && isascii s'
  end.

End Py.

Import Py.

(* ===================================================================== *)
(** * The process environment *)
(* ===================================================================== *)

Module OS.

(** What [os.stat] finds at a path (symbolic links followed). A file whose
    content is [None] cannot be opened for reading; a directory whose
    listing is [None] cannot be listed. *)
Inductive node : Type :=
| File (content : option string) (mtime : N)
| Dir (listing : option (list string)).

(** Everything outside the script that its run depends on. The scripts
    never call [os.chdir], so [cwd] is the directory the process was
    started from.

    [open_error p] is the message of the [ValueError] that [open(p, 'rb')]
    raises before it looks anything up: a path with an embedded null byte,
    or one the file system encoding cannot encode ([UnicodeEncodeError]).
    [stdout_error line] is the exception [print(line)] raises, if any:
    [UnicodeEncodeError] when the encoding of the console lacks a
    character of the line, [OSError] when stdout is a closed pipe,
    [KeyboardInterrupt] when Ctrl+C arrives while the line is written. *)
Record world : Type := {
  cwd : string;                            (* os.getcwd(), absolute *)
  script_file : string;                    (* __file__ *)
  argv : list string;                      (* sys.argv[1:] *)
  fs : string -> option node;              (* lookup of an absolute path *)
  open_error : string -> option string;    (* open(p, 'rb'): ValueError *)
  bind_error : nat -> option string;       (* bind()/listen() failure on a port *)
  browser : string -> result bool;         (* what webbrowser.open(url) does *)
  stdout_error : string -> option exn      (* what print(line) raises *)
}.

(** [posixpath.join(a, b)] *)
Definition join (a b : string) : string :=
  if startswith b "/" then b
  else if (String.eqb a "" || endswith_slash a)%bool then a ++ b
  else a ++ "/" ++ b.

(** [posixpath.normpath(path)] *)
Definition normpath (path : string) : string :=
  if String.eqb path "" then "." else
  let initial_slashes :=
    if startswith path "/" then
      if (startswith path "//" && negb (startswith path "///"))%bool
      then 2 else 1
    else 0 in
  let comps := split_on "/" path in
  let new_comps :=
    fold_left
      (fun new_comps comp =>
         if (String.eqb comp "" || String.eqb comp ".")%bool then new_comps
         else if (negb (String.eqb comp "..")
                  || (Nat.eqb initial_slashes 0
                      && Nat.eqb (List.length new_comps) 0)
                  || (negb (Nat.eqb (List.length new_comps) 0)
                      && String.eqb (last new_comps "") ".."))%bool
              then (new_comps ++ [comp])%list
              else removelast new_comps)
      comps [] in
  let path := join_with "/" new_comps in
  let path := String.concat "" (repeat "/" initial_slashes) ++ path in
  if String.eqb path "" then "." else path.

(** The path the kernel looks up for a path given to a system call: a
    relative path is taken from the working directory of the process. *)
Definition resolve (w : world) (p : string) : string :=
  if startswith p "/" then p else join (cwd w) p.

(** [os.stat(p)] *)
Definition stat (w : world) (p : string) : option node := fs w (resolve w p).

(** [os.path.exists(p)]: true when [os.stat] succeeds. *)
Definition path_exists (w : world) (p : string) : bool :=
  match stat w p with Some _ => true | None => false end.

(** [os.path.isdir(p)] *)
Definition isdir (w : world) (p : string) : bool :=
  match stat w p with Some (Dir _) => true | _ => false end.

(** [os.path.isfile(p)] *)
Definition isfile (w : world) (p : string) : bool :=
  match stat w p with Some (File _ _) => true | _ => false end.

(** [os.path.abspath(p)] *)
Definition abspath (w : world) (p : string) : string :=
  normpath (if startswith p "/" then p else join (cwd w) p).

(** [open(p, 'rb')] followed by reading the whole file and [os.fstat]:
    content and modification time; [ValueError] for a path that is
    rejected before any lookup; [OSError] when the file is not there or
    cannot be read. *)
Definition open_rb (w : world) (p : string) : result (string * N) :=
  match open_error w p with
  | Some what => Raise (ValueError what)
  | None =>
      match stat w p with
      | Some (File (Some content) mtime) => Ok (content, mtime)
      | _ => Raise (OSError p)
      end
  end.

(** [os.listdir(p)] *)
Definition listdir (w : world) (p : string) : result (list string) :=
  match stat w p with
  | Some (Dir (Some names)) => Ok names
  | _ => Raise (OSError p)
  end.

End OS.

(* ===================================================================== *)
(** * [http.server] *)
(* ===================================================================== *)

Module HttpServer.

(** The request handler classes the scripts derive from, after
    [Lib/http/server.py] of CPython 3.11. What the library writes to
    stderr (its request log) is left out. *)

(** The attributes of a request handler object that the methods below
    read or assign. [_headers_buffer] is [None] until the attribute has
    been created; [wfile] is everything written to the client so far. *)
Record handler : Type := {
  directory : string;
  command : option string;
  path : string;
  request_version : string;
  if_modified_since : option N;
  _headers_buffer : option (list string);
  wfile : string;
  close_connection : bool
}.

(** A method of the handler: it may assign attributes of [self] and may
    raise. *)
Definition method (A : Type) : Type := handler -> result (A * handler).

Definition ret {A : Type} (a : A) : method A := fun h => Ok (a, h).

Definition bind {A B : Type} (m : method A) (k : A -> method B) : method B :=
  fun h =>
    match m h with
    | Ok (a, h') => k a h'
    | Raise e => Raise e
    end.

Definition raise {A : Type} (e : exn) : method A := fun _ => Raise e.

Definition self : method handler := fun h => Ok (h, h).

Definition assign (f : handler -> handler) : method unit :=
  fun h => Ok (tt, f h).

Declare Scope method_scope.
Delimit Scope method_scope with method.
Bind Scope method_scope with method.
Notation "x <- m ;; k" := (bind m (fun x => k))
  (at level 61, m at next level, right associativity) : method_scope.
Notation "m ;; k" := (bind m (fun _ => k))
  (at level 61, right associativity) : method_scope.
Local Open Scope method_scope.

Definition set_command (c : option string) (h : handler) : handler :=
  {| directory := directory h; command := c; path := path h;
     request_version := request_version h;
     if_modified_since := if_modified_since h;
     _headers_buffer := _headers_buffer h; wfile := wfile h;
     close_connection := close_connection h |}.

Definition set_path (p : string) (h : handler) : handler :=
  {| directory := directory h; command := command h; path := p;
     request_version := request_version h;
     if_modified_since := if_modified_since h;
     _headers_buffer := _headers_buffer h; wfile := wfile h;
     close_connection := close_connection h |}.

Definition set_request_version (v : string) (h : handler) : handler :=
  {| directory := directory h; command := command h; path := path h;
     request_version := v;
     if_modified_since := if_modified_since h;
     _headers_buffer := _headers_buffer h; wfile := wfile h;
     close_connection := close_connection h |}.

Definition set_if_modified_since (t : option N) (h : handler) : handler :=
  {| directory := directory h; command := command h; path := path h;
     request_version := request_version h;
     if_modified_since := t;
     _headers_buffer := _headers_buffer h; wfile := wfile h;
     close_connection := close_connection h |}.

Definition set_headers_buffer (b : option (list string)) (h : handler)
  : handler :=
  {| directory := directory h; command := command h; path := path h;
     request_version := request_version h;
     if_modified_since := if_modified_since h;
     _headers_buffer := b; wfile := wfile h;
     close_connection := close_connection h |}.

Definition set_close_connection (c : bool) (h : handler) : handler :=
  {| directory := directory h; command := command h; path := path h;
     request_version := request_version h;
     if_modified_since := if_modified_since h;
     _headers_buffer := _headers_buffer h; wfile := wfile h;
     close_connection := c |}.

(** [self.wfile.write(data)] *)
Definition wfile_write (data : string) (h : handler) : handler :=
  {| directory := directory h; command := command h; path := path h;
     request_version := request_version h;
     if_modified_since := if_modified_since h;
     _headers_buffer := _headers_buffer h; wfile := wfile h ++ data;
     close_connection := close_connection h |}.

(** Class attributes of [BaseHTTPRequestHandler]. *)
Definition default_request_version : string := "HTTP/0.9".
Definition protocol_version : string := "HTTP/1.0".
Definition error_content_type : string := "text/html;charset=utf-8".

(** What a request handler class provides to the library code that calls
    back into [self]: the [directory=] argument its [__init__] passes on
    and its [end_headers]. Library code below always calls
    [self.end_headers()], which is the method of the subclass. The scripts
    override nothing else. *)
Class HandlerClass : Type := {
  init_directory : string;
  self_end_headers : method unit
}.

(** Library functions that only produce text; kept as they are, without a
    definition of their own. *)
Record platform : Type := {
  responses : nat -> option (string * string);    (* self.responses *)
  repr : string -> string;                        (* '%r' % s *)
  parse_version : string -> option (Z * Z);       (* parse_request: the
                                                     version word as a pair
                                                     of ints, or ValueError *)
  url_words : string -> list string;              (* translate_path: the
                                                     non-empty components of
                                                     the unquoted, normalised
                                                     request path *)
  url_trailing_slash : string -> bool;            (* translate_path *)
  url_path_endswith_slash : string -> bool;       (* send_head: urlsplit *)
  redirect_location : string -> string;           (* send_head: urlunsplit *)
  guess_type : string -> string;
  date_time_string : option N -> string;
  version_string : string;
  error_page : nat -> string -> string -> string; (* error_message_format *)
  listing_page : string -> list string -> string; (* list_directory body *)
  filesystem_encoding : string
}.

(** ** [BaseHTTPRequestHandler]: the header buffer *)

(** [if not hasattr(self, '_headers_buffer'): self._headers_buffer = []]
    followed by [self._headers_buffer.append(line)] *)
Definition buffer_append (line : string) : method unit :=
  assign (fun h =>
    match _headers_buffer h with
    | None => set_headers_buffer (Some [line]) h
    | Some buf => set_headers_buffer (Some (buf ++ [line])%list) h
    end).

Section Base.

Variable pf : platform.

(** [BaseHTTPRequestHandler.send_response_only] *)
Definition send_response_only (code : nat) (message : option string)
  : method unit :=
  h <- self ;;
  if negb (String.eqb (request_version h) "HTTP/0.9") then
    let message :=
      match message with
      | Some m => m
      | None => match responses pf code with
                | Some (shortmsg, _) => shortmsg
                | None => ""
                end
      end in
    buffer_append (protocol_version ++ " " ++ str code ++ " " ++ message ++ CRLF)
  else ret tt.

(** [BaseHTTPRequestHandler.send_header]: nothing is buffered for an
    HTTP/0.9 request. *)
Definition send_header (keyword value : string) : method unit :=
  h <- self ;;
  (if negb (String.eqb (request_version h) "HTTP/0.9")
   then buffer_append (keyword ++ ": " ++ value ++ CRLF)
   else ret tt) ;;
  if String.eqb (lower keyword) "connection" then
    if String.eqb (lower value) "close" then
      assign (set_close_connection true)
    else if String.eqb (lower value) "keep-alive" then
      assign (set_close_connection false)
    else ret tt
  else ret tt.

(** [BaseHTTPRequestHandler.flush_headers] *)
Definition flush_headers : method unit :=
  h <- self ;;
  match _headers_buffer h with
  | Some buf =>
      assign (wfile_write (join buf)) ;;
      assign (set_headers_buffer (Some []))
  | None => ret tt
  end.

(** [BaseHTTPRequestHandler.end_headers]; [super().end_headers()] in the
    scripts. The append is not guarded by [hasattr]. *)
Definition end_headers : method unit :=
  h <- self ;;
  if negb (String.eqb (request_version h) "HTTP/0.9") then
    match _headers_buffer h with
    | None => raise (AttributeError "_headers_buffer")
    | Some buf =>
        assign (set_headers_buffer (Some (buf ++ [CRLF])%list)) ;;
        flush_headers
    end
  else ret tt.

(** [BaseHTTPRequestHandler.send_response] *)
Definition send_response (code : nat) (message : option string)
  : method unit :=
  send_response_only code message ;;
  send_header "Server" (version_string pf) ;;
  send_header "Date" (date_time_string pf None).

End Base.

(** ** Requests *)

(** What [http.client.parse_headers] makes of the header block that
    follows the request line. For a well-formed block, [ims] is the time
    of an [If-Modified-Since] header that [send_head] takes into account
    (present, parsed, in UTC, and no [If-None-Match] header). *)
Inductive header_block : Type :=
| Headers (ims : option N)
| LineTooLong (err : string)
| TooManyHeaders (err : string).

(** One request as read from the connection: the request line as returned
    by [rfile.readline(65537)] and the header block after it. *)
Record request : Type := {
  raw_requestline : string;
  request_headers : header_block
}.

(** ** [BaseHTTPRequestHandler] and [SimpleHTTPRequestHandler] *)

Section Handler.

Context {cls : HandlerClass}.
Variable pf : platform.
Variable w : OS.world.

(** [BaseHTTPRequestHandler.send_error] *)
Definition send_error (code : nat) (message explain : option string)
  : method unit :=
  let '(shortmsg, longmsg) :=
    match responses pf code with
    | Some sl => sl
    | None => ("???", "???")
    end in
  let message := match message with Some m => m | None => shortmsg end in
  let explain := match explain with Some e => e | None => longmsg end in
  send_response pf code (Some message) ;;
  send_header "Connection" "close" ;;
  body <- (if (Nat.leb 200 code
               && negb (Nat.eqb code 204 || Nat.eqb code 205
                        || Nat.eqb code 304))%bool
           then
             let body := error_page pf code message explain in
             send_header "Content-Type" error_content_type ;;
             send_header "Content-Length" (str (String.length body)) ;;
             ret (Some body)
           else ret None) ;;
  self_end_headers ;;
  h <- self ;;
  match body with
  | Some body =>
      if (negb (match command h with
                | Some c => String.eqb c "HEAD"
                | None => false
                end)
          && negb (String.eqb body ""))%bool
      then assign (wfile_write body)
      else ret tt
  | None => ret tt
  end.

(** [BaseHTTPRequestHandler.parse_request]: [true] when the request is to be dispatched, [false]
    when an error response (or nothing) has been sent. [protocol_version]
    is ["HTTP/1.0"], so the two tests [self.protocol_version >= "HTTP/1.1"]
    fail: [close_connection] stays [True] and [Expect: 100-continue] is
    not answered. *)
Definition parse_request (r : request) : method bool :=
  assign (set_command None) ;;
  assign (set_request_version default_request_version) ;;
  assign (set_close_connection true) ;;
  let requestline := rstrip_crlf (raw_requestline r) in
  let words := split_ws requestline in
  let n := List.length words in
  if Nat.eqb n 0 then ret false else
  ok <- (if Nat.leb 3 n then
           let version := last words "" in
           match parse_version pf version with
           | None =>
               send_error 400
                 (Some ("Bad request version (" ++ repr pf version ++ ")"))
                 None ;;
               ret false
           | Some (major, minor) =>
               if ((2 <? major)%Z || ((major =? 2)%Z && (0 <=? minor)%Z))%bool
               then
                 send_error 505
                   (Some ("Invalid HTTP version ("
                          ++ after_slash version ++ ")"))
                   None ;;
                 ret false
               else
                 assign (set_request_version version) ;;
                 ret true
           end
         else ret true) ;;
  if negb ok then ret false else
  if negb (Nat.leb 2 n && Nat.leb n 3)%bool then
    send_error 400
      (Some ("Bad request syntax (" ++ repr pf requestline ++ ")")) None ;;
    ret false
  else
  let command := nth 0 words "" in
  let path := nth 1 words "" in
  ok <- (if Nat.eqb n 2 then
           assign (set_close_connection true) ;;
           if negb (String.eqb command "GET") then
             send_error 400
               (Some ("Bad HTTP/0.9 request type (" ++ repr pf command ++ ")"))
               None ;;
             ret false
           else ret true
         else ret true) ;;
  if negb ok then ret false else
  assign (set_command (Some command)) ;;
  assign (set_path
            (if startswith path "//" then "/" ++ lstrip_slash path
             else path)) ;;
  match request_headers r with
  | LineTooLong err =>
      send_error 431 (Some "Line too long") (Some err) ;;
      ret false
  | TooManyHeaders err =>
      send_error 431 (Some "Too many headers") (Some err) ;;
      ret false
  | Headers ims =>
      assign (set_if_modified_since ims) ;;
      ret true
  end.

(** [SimpleHTTPRequestHandler.translate_path]: the request path, already cut into components by the
    library ([url_words], [url_trailing_slash]), is appended to
    [self.directory]. *)
Definition translate_path (path : string) : method string :=
  h <- self ;;
  let words := url_words pf path in
  let trailing_slash := url_trailing_slash pf path in
  let path :=
    fold_left
      (fun path word =>
         if (has_slash word || String.eqb word "." || String.eqb word "..")%bool
         then path
         else OS.join path word)
      words (directory h) in
  ret (if trailing_slash then path ++ "/" else path).

(** [SimpleHTTPRequestHandler.list_directory] *)
Definition list_directory (path : string) : method (option string) :=
  match OS.listdir w path with
  | Raise _ =>
      send_error 404 (Some "No permission to list directory") None ;;
      ret None
  | Ok names =>
      h <- self ;;
      let encoded := listing_page pf (HttpServer.path h) names in
      send_response pf 200 None ;;
      send_header "Content-type"
        ("text/html; charset=" ++ filesystem_encoding pf) ;;
      send_header "Content-Length" (str (String.length encoded)) ;;
      self_end_headers ;;
      ret (Some encoded)
  end.

(** [SimpleHTTPRequestHandler.send_head]: the body to copy to the client, or [None] when the
    response is complete. The [try] around [open] has [except OSError:]
    only, so any other exception of [open] leaves the method. *)
Definition send_head : method (option string) :=
  h <- self ;;
  path <- translate_path (HttpServer.path h) ;;
  let serve_file (path : string) : method (option string) :=
    let ctype := guess_type pf path in
    if endswith_slash path then
      send_error 404 (Some "File not found") None ;;
      ret None
    else
      match OS.open_rb w path with
      | Raise (OSError _) =>
          send_error 404 (Some "File not found") None ;;
          ret None
      | Raise e => raise e
      | Ok (content, mtime) =>
          h <- self ;;
          if match if_modified_since h with
             | Some ims => N.leb mtime ims
             | None => false
             end
          then
            send_response pf 304 None ;;
            self_end_headers ;;
            ret None
          else
            send_response pf 200 None ;;
            send_header "Content-type" ctype ;;
            send_header "Content-Length" (str (String.length content)) ;;
            send_header "Last-Modified" (date_time_string pf (Some mtime)) ;;
            self_end_headers ;;
            ret (Some content)
      end in
  if OS.isdir w path then
    if negb (url_path_endswith_slash pf (HttpServer.path h)) then
      send_response pf 301 None ;;
      send_header "Location" (redirect_location pf (HttpServer.path h)) ;;
      send_header "Content-Length" "0" ;;
      self_end_headers ;;
      ret None
    else if OS.isfile w (OS.join path "index.html") then
      serve_file (OS.join path "index.html")
    else if OS.isfile w (OS.join path "index.htm") then
      serve_file (OS.join path "index.htm")
    else list_directory path
  else serve_file path.

(** [SimpleHTTPRequestHandler.do_GET] *)
Definition do_GET : method unit :=
  f <- send_head ;;
  match f with
  | Some content => assign (wfile_write content)
  | None => ret tt
  end.

(** [SimpleHTTPRequestHandler.do_HEAD] *)
Definition do_HEAD : method unit :=
  f <- send_head ;;
  ret tt.

(** [BaseHTTPRequestHandler.handle_one_request]. The handler classes of the scripts define no
    [do_*] method, so [hasattr(self, 'do_' + command)] holds for [GET] and
    [HEAD] only. *)
Definition handle_one_request (r : request) : method unit :=
  if Nat.ltb 65536 (String.length (raw_requestline r)) then
    assign (set_request_version "") ;;
    assign (set_command (Some "")) ;;
    send_error 414 None None
  else if String.eqb (raw_requestline r) "" then
    assign (set_close_connection true)
  else
    ok <- parse_request r ;;
    if negb ok then ret tt else
    h <- self ;;
    let command := match command h with Some c => c | None => "" end in
    if String.eqb command "GET" then do_GET
    else if String.eqb command "HEAD" then do_HEAD
    else
      send_error 501
        (Some ("Unsupported method (" ++ repr pf command ++ ")")) None.

(** The end of the client's data: [readline] returns [b'']. *)
Definition end_of_input : request :=
  {| raw_requestline := ""; request_headers := Headers None |}.

(** The [while not self.close_connection] loop of [handle], over the
    requests the client still sends on the connection. *)
Fixpoint handle_more (pending : list request) : method unit :=
  h <- self ;;
  if close_connection h then ret tt
  else
    match pending with
    | [] => handle_one_request end_of_input
    | r :: pending' => handle_one_request r ;; handle_more pending'
    end.

Definition handle (pending : list request) : method unit :=
  assign (set_close_connection true) ;;
  handle_one_request (hd end_of_input pending) ;;
  handle_more (tl pending).

(** The handler object as [__init__] leaves it before [handle] runs:
    [SimpleHTTPRequestHandler.__init__] stores [directory]; the other
    attributes are assigned by [handle] before they are read. *)
Definition new_handler : handler :=
  {| directory := init_directory; command := None; path := "";
     request_version := default_request_version;
     if_modified_since := None; _headers_buffer := None;
     wfile := ""; close_connection := true |}.

(** [RequestHandlerClass(request, client_address, server)]: what the
    client receives on one connection, or the exception that escapes. *)
Definition serve_connection (pending : list request) : result string :=
  match handle pending new_handler with
  | Ok (_, h) => Ok (wfile h)
  | Raise e => Raise e
  end.

End Handler.

End HttpServer.

(* ===================================================================== *)
(** * The running process: output, sockets, [socketserver] *)
(* ===================================================================== *)

Module Process.

(** What the process does to the outside, in order. *)
Inductive effect : Type :=
| Print (line : string)                    (* print(line) *)
| SocketCreate                             (* socket.socket(...) *)
| SocketBind (host : string) (port : nat)  (* socket.bind((host, port)) *)
| SocketListen                             (* socket.listen(...) *)
| SocketClose                              (* socket.close() *)
| OpenBrowser (url : string)               (* webbrowser.open(url) *)
| Response (bytes : string)                (* data sent on one connection *)
| HandlerError (e : exn)                   (* handle_error: stderr report *)
| Traceback (e : exn).                     (* uncaught exception report *)

(** How a piece of the program stops: it completes, raises, or is still
    waiting for an event that has not come. *)
Inductive status (A : Type) : Type :=
| Done (a : A)
| Exc (e : exn)
| Blocked.
Arguments Done {A} a.
Arguments Exc {A} e.
Arguments Blocked {A}.

Definition proc (A : Type) : Type := (list effect * status A)%type.

Definition ret {A : Type} (a : A) : proc A := ([], Done a).

Definition bind {A B : Type} (m : proc A) (k : A -> proc B) : proc B :=
  match m with
  | (t, Done a) => let '(t', s) := k a in ((t ++ t')%list, s)
  | (t, Exc e) => (t, Exc e)
  | (t, Blocked) => (t, Blocked)
  end.

Definition raise {A : Type} (e : exn) : proc A := ([], Exc e).

Definition tell (e : effect) : proc unit := ([e], Done tt).

(** [print(line)]: the line is written to stdout, or the exception that
    stdout raises for it leaves the call. *)
Definition print (w : OS.world) (line : string) : proc unit :=
  match OS.stdout_error w line with
  | None => tell (Print line)
  | Some e => raise e
  end.

Declare Scope proc_scope.
Delimit Scope proc_scope with proc.
Notation "x <- m ;; k" := (bind m (fun x => k))
  (at level 61, m at next level, right associativity) : proc_scope.
Notation "m ;; k" := (bind m (fun _ => k))
  (at level 61, right associativity) : proc_scope.

(** [try: body / except <catches>: handler] *)
Definition try_except {A : Type} (body : proc A) (catches : exn -> bool)
  (handler : exn -> proc A) : proc A :=
  match body with
  | (t, Exc e) =>
      if catches e
      then let '(t', s) := handler e in ((t ++ t')%list, s)
      else (t, Exc e)
  | other => other
  end.

(** A bare [except:] *)
Definition any_exception (e : exn) : bool := true.

(** [except KeyboardInterrupt:] *)
Definition is_KeyboardInterrupt (e : exn) : bool :=
  match e with KeyboardInterrupt => true | _ => false end.

(** [with manager as x: body], for a manager whose [__enter__] returns
    itself and whose [__exit__] returns [None]: [exit_] runs when the body
    completes and when it raises, and the exception is raised again. *)
Definition with_ {S A : Type} (manager : proc S) (exit_ : S -> proc unit)
  (body : S -> proc A) : proc A :=
  match manager with
  | (t, Done x) =>
      match body x with
      | (t', Done a) =>
          let '(t'', s) := exit_ x in
          ((t ++ t' ++ t'')%list,
           match s with Done _ => Done a | Exc e => Exc e | Blocked => Blocked end)
      | (t', Exc e) =>
          let '(t'', s) := exit_ x in
          ((t ++ t' ++ t'')%list,
           match s with Done _ => Exc e | Exc e' => Exc e' | Blocked => Blocked end)
      | (t', Blocked) => ((t ++ t')%list, Blocked)
      end
  | (t, Exc e) => (t, Exc e)
  | (t, Blocked) => (t, Blocked)
  end.

(** [webbrowser.open(url)] *)
Definition webbrowser_open (w : OS.world) (url : string) : proc bool :=
  match OS.browser w url with
  | Ok launched => ([OpenBrowser url], Done launched)
  | Raise e => ([OpenBrowser url], Exc e)
  end.

(** The state of the whole process. An uncaught [KeyboardInterrupt] ends
    the interpreter by the interrupt signal, any other uncaught exception
    with status 1, the end of the script with status 0. *)
Inductive process_state : Type :=
| Running
| Exited (code : nat)
| Interrupted.

(** [if __name__ == "__main__": main()] *)
Definition run (main : proc unit) : list effect * process_state :=
  match main with
  | (t, Done _) => (t, Exited 0)
  | (t, Exc KeyboardInterrupt) => ((t ++ [Traceback KeyboardInterrupt])%list, Interrupted)
  | (t, Exc e) => ((t ++ [Traceback e])%list, Exited 1)
  | (t, Blocked) => (t, Running)
  end.

End Process.

Module SocketServer.

Import Process.

(** The attributes of a [TCPServer] the scripts depend on. *)
Record TCPServer : Type := {
  server_address : string * nat;
  RequestHandlerClass : HttpServer.HandlerClass
}.

(** What happens while the server waits in [serve_forever]: a client
    connects and sends requests, or the user presses Ctrl+C. A Ctrl+C
    that arrives earlier, while a line is printed or the browser is
    opened, is the [KeyboardInterrupt] that call raises
    ([OS.stdout_error], [OS.browser]); a Ctrl+C at any other instant (in
    the middle of [TCPServer.__init__], or while a handler runs) is not
    part of this model. *)
Inductive event : Type :=
| Connection (pending : list HttpServer.request)
| Interrupt.

Section Server.

Variable pf : HttpServer.platform.
Variable w : OS.world.

(** [TCPServer.__init__]: create the socket, then [server_bind] and
    [server_activate]; when either fails the socket is closed and the
    exception raised again. *)
Definition TCPServer_init (address : string * nat)
  (cls : HttpServer.HandlerClass) : proc TCPServer :=
  (tell SocketCreate ;;
   tell (SocketBind (fst address) (snd address)) ;;
   match OS.bind_error w (snd address) with
   | Some what => tell SocketClose ;; raise (OSError what)
   | None =>
       tell SocketListen ;;
       ret {| server_address := address; RequestHandlerClass := cls |}
   end)%proc.

(** [TCPServer.server_close], called by [__exit__]. *)
Definition server_close (httpd : TCPServer) : proc unit := tell SocketClose.

(** [serve_forever]: nothing in the scripts calls [shutdown], so the loop
    only ends by an exception. [_handle_request_noblock] reports an
    [Exception] raised by the handler and goes on; anything else is raised
    again. A connection on which the handler writes nothing leaves no
    [Response]. *)
Fixpoint serve_forever (httpd : TCPServer) (events : list event)
  : proc unit :=
  match events with
  | [] => ([], Blocked)
  | Interrupt :: _ => raise KeyboardInterrupt
  | Connection pending :: events' =>
      match HttpServer.serve_connection (cls := RequestHandlerClass httpd)
              pf w pending with
      | Ok bytes =>
          ((if String.eqb bytes "" then ret tt else tell (Response bytes)) ;;
           serve_forever httpd events')%proc
      | Raise KeyboardInterrupt => raise KeyboardInterrupt
      | Raise e => (tell (HandlerError e) ;; serve_forever httpd events')%proc
      end
  end.

End Server.

End SocketServer.

(* ===================================================================== *)
(** * [preview-server.py] *)
(* ===================================================================== *)

Module PreviewServer.

Import HttpServer Process SocketServer.

Definition PORT : nat := 8080.
Definition DIRECTORY : string := "public".

Section Script.

Variable pf : platform.

(** [Handler.end_headers] *)
Definition end_headers : method unit :=
  (send_header "Access-Control-Allow-Origin" "*" ;;
   send_header "Access-Control-Allow-Methods" "GET, POST, OPTIONS" ;;
   send_header "Access-Control-Allow-Headers" "Content-Type" ;;
   HttpServer.end_headers)%method.

(** [class Handler(http.server.SimpleHTTPRequestHandler)]: its [__init__]
    passes [directory=DIRECTORY] on, and it overrides [end_headers]. *)
Definition Handler : HandlerClass :=
  {| init_directory := DIRECTORY; self_end_headers := end_headers |}.

Variable w : OS.world.
Variable events : list event.

Definition main : proc unit :=
  (if negb (OS.path_exists w DIRECTORY) then
     print w ("❌ Directory '" ++ DIRECTORY ++ "' not found!") ;;
     print w "Make sure you're running this from the project root."
   else
     with_ (TCPServer_init w ("", PORT) Handler) server_close (fun httpd =>
       let url := "http://localhost:" ++ str PORT in
       print w "🚀 Resume website preview server starting..." ;;
       print w ("📱 Local URL: " ++ url) ;;
       print w ("📁 Serving: " ++ OS.abspath w DIRECTORY) ;;
       print w "🛑 Press Ctrl+C to stop" ;;
       try_except
         (webbrowser_open w url ;;
          print w ("🌐 Opening " ++ url ++ " in your default browser..."))
         any_exception
         (fun _ => print w ("💡 Manually open " ++ url ++ " in your browser")) ;;
       try_except
         (serve_forever pf w httpd events)
         is_KeyboardInterrupt
         (fun _ => print w (LF ++ "👋 Server stopped!"))))%proc.

End Script.

End PreviewServer.

(* ===================================================================== *)
(** * [aws-version/preview-aws.py] *)
(* ===================================================================== *)

Module PreviewAws.

Import HttpServer Process SocketServer.

Definition PORT : nat := 8081.
Definition DIRECTORY : string := "frontend".

Section Script.

Variable pf : platform.

(** [Handler.end_headers] *)
Definition end_headers : method unit :=
  (send_header "Access-Control-Allow-Origin" "*" ;;
   HttpServer.end_headers)%method.

(** [class Handler(http.server.SimpleHTTPRequestHandler)]: its [__init__]
    passes [directory=DIRECTORY] on, and it overrides [end_headers]. *)
Definition Handler : HandlerClass :=
  {| init_directory := DIRECTORY; self_end_headers := end_headers |}.

Variable w : OS.world.
Variable events : list event.

Definition main : proc unit :=
  (if negb (OS.path_exists w DIRECTORY) then
     print w ("❌ Directory '" ++ DIRECTORY ++ "' not found!")
   else
     with_ (TCPServer_init w ("", PORT) Handler) server_close (fun httpd =>
       let url := "http://localhost:" ++ str PORT in
       print w "🚀 AWS Resume website preview server starting..." ;;
       print w ("📱 Local URL: " ++ url) ;;
       print w "🛑 Press Ctrl+C to stop" ;;
       try_except
         (webbrowser_open w url ;;
          print w ("🌐 Opening " ++ url ++ " in your browser..."))
         any_exception
         (fun _ => print w ("💡 Manually open " ++ url ++ " in your browser")) ;;
       try_except
         (serve_forever pf w httpd events)
         is_KeyboardInterrupt
         (fun _ => print w (LF ++ "👋 Server stopped!"))))%proc.

End Script.

End PreviewAws.

(* ===================================================================== *)
(** * Vocabulary of the statements *)
(* ===================================================================== *)

Module Scripts.

Import HttpServer Process SocketServer.

(** The two scripts of the repository. *)
Inductive script : Type :=
| preview_server    (* preview-server.py *)
| preview_aws.      (* aws-version/preview-aws.py *)

Definition PORT (s : script) : nat :=
  match s with
  | preview_server => PreviewServer.PORT
  | preview_aws => PreviewAws.PORT
  end.

Definition DIRECTORY (s : script) : string :=
  match s with
  | preview_server => PreviewServer.DIRECTORY
  | preview_aws => PreviewAws.DIRECTORY
  end.

Definition end_headers (s : script) : method unit :=
  match s with
  | preview_server => PreviewServer.end_headers
  | preview_aws => PreviewAws.end_headers
  end.

Definition Handler (s : script) : HandlerClass :=
  match s with
  | preview_server => PreviewServer.Handler
  | preview_aws => PreviewAws.Handler
  end.

Definition main (s : script) (pf : platform) (w : OS.world)
  (events : list event) : proc unit :=
  match s with
  | preview_server => PreviewServer.main pf w events
  | preview_aws => PreviewAws.main pf w events
  end.

(** The URL both scripts build: [f"http://localhost:{PORT}"]. *)
Definition url (s : script) : string := "http://localhost:" ++ str (PORT s).

(** One header line as it is sent. *)
Definition header_line (keyword value : string) : string :=
  keyword ++ ": " ++ value ++ CRLF.

Definition allow_origin : string :=
  header_line "Access-Control-Allow-Origin" "*".
Definition allow_methods : string :=
  header_line "Access-Control-Allow-Methods" "GET, POST, OPTIONS".
Definition allow_headers : string :=
  header_line "Access-Control-Allow-Headers" "Content-Type".

(** The headers each script adds to a response, in the order of its
    [send_header] calls. *)
Definition cors (s : script) : list (string * string) :=
  match s with
  | preview_server =>
      [("Access-Control-Allow-Origin", "*");
       ("Access-Control-Allow-Methods", "GET, POST, OPTIONS");
       ("Access-Control-Allow-Headers", "Content-Type")]
  | preview_aws => [("Access-Control-Allow-Origin", "*")]
  end.

(** The same headers as the lines that are sent. *)
Definition injected (s : script) : list string :=
  map (fun kv => header_line (fst kv) (snd kv)) (cors s).

(** [self.send_header(k, v)] for each header of the list, in order. *)
Definition send_headers (headers : list (string * string)) : method unit :=
  fold_right
    (fun kv rest =>
       HttpServer.bind (send_header (fst kv) (snd kv)) (fun _ => rest))
    (HttpServer.ret tt) headers.

(** [sub in s] *)
Fixpoint contains (sub s : string) : bool :=
  (String.prefix sub s
   || match s with
      | EmptyString => false
      | String _ s' => contains sub s'
      end)%bool.

(** The handler after its buffered header lines and [out] have been
    written: what [flush_headers] leaves. *)
Definition flushed (out : string) (h : handler) : handler :=
  set_headers_buffer (Some []) (wfile_write out h).

(** The header lines buffered so far. *)
Definition buffered (h : handler) : list string :=
  match _headers_buffer h with
  | Some buf => buf
  | None => []
  end.

Definition is_SocketClose (e : effect) : bool :=
  match e with SocketClose => true | _ => false end.

(** How many times the listening socket is closed in a trace. *)
Definition socket_closes (t : list effect) : nat :=
  List.length (filter is_SocketClose t).

Definition success_message (s : script) : string :=
  match s with
  | preview_server => "🌐 Opening " ++ url s ++ " in your default browser..."
  | preview_aws => "🌐 Opening " ++ url s ++ " in your browser..."
  end.

Definition fallback_message (s : script) : string :=
  "💡 Manually open " ++ url s ++ " in your browser".

Definition farewell_message : string := LF ++ "👋 Server stopped!".

Definition not_found_lines (s : script) : list string :=
  match s with
  | preview_server =>
      ["❌ Directory 'public' not found!";
       "Make sure you're running this from the project root."]
  | preview_aws => ["❌ Directory 'frontend' not found!"]
  end.

(** The same world started with other command-line arguments, from
    another script location, or from another directory. *)
Definition with_argv (args : list string) (w : OS.world) : OS.world :=
  {| OS.cwd := OS.cwd w; OS.script_file := OS.script_file w;
     OS.argv := args; OS.fs := OS.fs w; OS.open_error := OS.open_error w;
     OS.bind_error := OS.bind_error w; OS.browser := OS.browser w;
     OS.stdout_error := OS.stdout_error w |}.

Definition with_script_file (f : string) (w : OS.world) : OS.world :=
  {| OS.cwd := OS.cwd w; OS.script_file := f;
     OS.argv := OS.argv w; OS.fs := OS.fs w; OS.open_error := OS.open_error w;
     OS.bind_error := OS.bind_error w; OS.browser := OS.browser w;
     OS.stdout_error := OS.stdout_error w |}.

Definition with_cwd (d : string) (w : OS.world) : OS.world :=
  {| OS.cwd := d; OS.script_file := OS.script_file w;
     OS.argv := OS.argv w; OS.fs := OS.fs w; OS.open_error := OS.open_error w;
     OS.bind_error := OS.bind_error w; OS.browser := OS.browser w;
     OS.stdout_error := OS.stdout_error w |}.

(** ** Vocabulary of the proofs *)

(** [wp m Q h]: run from [h], the method [m] returns normally, with a
    value and a final state that satisfy [Q]. *)
Definition wp {A : Type} (m : method A) (Q : A -> handler -> Prop)
  (h : handler) : Prop :=
  exists a h', m h = Ok (a, h') /\ Q a h'.

(** [wpe R m Q h]: run from [h], the method [m] returns normally, with a
    value and a final state that satisfy [Q], or raises an exception that
    satisfies [R]. *)
Definition wpe {A : Type} (R : exn -> Prop) (m : method A)
  (Q : A -> handler -> Prop) (h : handler) : Prop :=
  match m h with
  | Ok (a, h') => Q a h'
  | Raise e => R e
  end.

(** No exception at all. *)
Definition no_exception (e : exn) : Prop := False.

(** [e] is the [ValueError] that [open] raises for some path. *)
Definition open_failure (w : OS.world) (e : exn) : Prop :=
  exists p what, OS.open_error w p = Some what /\ e = ValueError what.

(** The attributes that describe the request stay as they are. *)
Definition same_request (h h' : handler) : Prop :=
  directory h' = directory h /\ command h' = command h
  /\ path h' = path h /\ request_version h' = request_version h
  /\ if_modified_since h' = if_modified_since h.

(** From [h] to [h'] the request is unchanged and exactly [out] has been
    written to the client. *)
Definition emits (out : string) (h h' : handler) : Prop :=
  same_request h h' /\ wfile h' = wfile h ++ out.

(** [m] returns normally, leaves the request as it is and only appends
    to the output. *)
Definition writes {A : Type} (m : method A) : Prop :=
  forall h, wp m (fun _ h' => exists out, emits out h h') h.

(** A line of a header section as the library buffers it: the status
    line of [send_response_only], or a header of [send_header]. *)
Definition header_like (line : string) : Prop :=
  (exists code message,
     line = protocol_version ++ " " ++ str code ++ " " ++ message ++ CRLF)
  \/ (exists keyword value, line = header_line keyword value).

(** From [h] to [h'] the request is unchanged, nothing has been written
    to the client and [lines] have been added to the header buffer. *)
Definition appended (lines : list string) (h h' : handler) : Prop :=
  same_request h h' /\ wfile h' = wfile h
  /\ buffered h' = (buffered h ++ lines)%list.

(** [m] returns normally and does nothing but buffer header lines. *)
Definition buffers {A : Type} (m : method A) : Prop :=
  forall h,
    wp m (fun _ h' =>
            exists lines, Forall header_like lines /\ appended lines h h') h.

(** What [Handler.end_headers] of script [s] does from any state: nothing
    at all for an HTTP/0.9 request; otherwise it writes the buffered
    lines, then the lines of the script, then the blank line, and leaves
    an empty buffer. *)
Definition hook_result (s : script) (h : handler) : handler :=
  if String.eqb (request_version h) "HTTP/0.9" then h
  else flushed (join (buffered h) ++ join (injected s) ++ CRLF) h.

(** Unless the request is an HTTP/0.9 one, [out] is one response: the
    header lines [pending] that were in the buffer, more header lines,
    the lines of the script, the blank line that ends the header section,
    and after it the body. *)
Definition answered (s : script) (pending : list string)
  (version out : string) : Prop :=
  version <> "HTTP/0.9" ->
  exists lines body,
    Forall header_like lines
    /\ out = join pending ++ join lines ++ join (injected s) ++ CRLF ++ body.

(** [m] leaves the request as it is and sends one response, or raises an
    exception that satisfies [R]. *)
Definition responds (R : exn -> Prop) (s : script) {A : Type}
  (m : method A) : Prop :=
  forall h,
    wpe R m (fun _ h' =>
               exists out,
                 emits out h h'
                 /\ answered s (buffered h) (request_version h) out) h.

(** Between [h0] and [h] nothing was written or buffered and the served
    directory is the same. *)
Definition quiet (h0 h : handler) : Prop :=
  directory h = directory h0 /\ wfile h = wfile h0
  /\ buffered h = buffered h0.

(** Between [h0] and [h] one response was written, for the request
    version that [h] records. *)
Definition replied (s : script) (h0 h : handler) : Prop :=
  directory h = directory h0
  /\ exists out,
       wfile h = wfile h0 ++ out
       /\ answered s (buffered h0) (request_version h) out.

Definition parsed (s : script) (h0 : handler) (ok : bool) (h : handler) : Prop :=
  if ok then quiet h0 h else replied s h0 h.

(** ** Vocabulary of the process traces *)

(** The server object a script creates: [TCPServer(("", PORT), Handler)]. *)
Definition httpd (s : script) : TCPServer :=
  {| server_address := ("", PORT s); RequestHandlerClass := Handler s |}.

(** The status lines printed once the server is bound. *)
Definition banner (s : script) (w : OS.world) : list string :=
  match s with
  | preview_server =>
      ["🚀 Resume website preview server starting...";
       "📱 Local URL: " ++ url s;
       "📁 Serving: " ++ OS.abspath w (DIRECTORY s);
       "🛑 Press Ctrl+C to stop"]
  | preview_aws =>
      ["🚀 AWS Resume website preview server starting...";
       "📱 Local URL: " ++ url s;
       "🛑 Press Ctrl+C to stop"]
  end.

(** From the creation of the socket to the end of the banner. *)
Definition startup (s : script) (w : OS.world) : list effect :=
  ([SocketCreate; SocketBind "" (PORT s); SocketListen]
   ++ map Print (banner s w))%list.

(** The attempt to open the browser and the line printed after it. *)
Definition browser_launch (s : script) (w : OS.world) : list effect :=
  OpenBrowser (url s)
  :: match OS.browser w (url s) with
     | Ok _ => [Print (success_message s)]
     | Raise _ => [Print (fallback_message s)]
     end.

(** What the client of one connection receives from script [s]. *)
Definition reply (s : script) (pf : platform) (w : OS.world)
  (pending : list request) : string :=
  match serve_connection (cls := Handler s) pf w pending with
  | Ok bytes => bytes
  | Raise _ => ""
  end.

(** What the serve loop of script [s] does for one connection: it sends
    what the handler wrote, if anything, or reports the exception of the
    handler. *)
Definition connection_effects (s : script) (pf : platform) (w : OS.world)
  (pending : list request) : list effect :=
  match serve_connection (cls := Handler s) pf w pending with
  | Ok bytes => if String.eqb bytes "" then [] else [Response bytes]
  | Raise e => [HandlerError e]
  end.

(** The same for a sequence of connections. *)
Definition replies (s : script) (pf : platform) (w : OS.world)
  (connections : list (list request)) : list effect :=
  flat_map (connection_effects s pf w) connections.

(** stdout takes every line: no [print] raises. *)
Definition console_accepts (w : OS.world) : Prop :=
  forall line, OS.stdout_error w line = None.

(** What the body of the [with] statement of script [s] can do: print,
    open the browser at the URL of the script, send a response, report
    the exception of a handler. No socket operation is among them. *)
Definition plain (s : script) (e : effect) : Prop :=
  match e with
  | Print _ | Response _ | HandlerError _ => True
  | OpenBrowser u => u = url s
  | _ => False
  end.

(** How an uncaught exception ends the process. *)
Definition ended_by (e : exn) : process_state :=
  match e with
  | KeyboardInterrupt => Interrupted
  | _ => Exited 1
  end.

(** How [main] goes on after the browser launch, given what the serve
    loop did: [before] is the trace up to the serve loop. *)
Definition conclude (before : list effect)
  (served : list effect * status unit) : proc unit :=
  match served with
  | (t, Blocked) => ((before ++ t)%list, Blocked)
  | (t, Exc KeyboardInterrupt) =>
      ((before ++ t ++ [Print farewell_message; SocketClose])%list, Done tt)
  | (t, Exc e) => ((before ++ t ++ [SocketClose])%list, Exc e)
  | (t, Done _) => ((before ++ t ++ [SocketClose])%list, Done tt)
  end.

(** ** Vocabulary of the further properties *)

Definition is_Interrupt (e : event) : bool :=
  match e with Interrupt => true | Connection _ => false end.

(** Whether Ctrl+C is pressed at some point while the server waits. *)
Definition interrupted (events : list event) : bool :=
  existsb is_Interrupt events.

(** The connections made before the first Ctrl+C. *)
Fixpoint before_interrupt (events : list event) : list (list request) :=
  match events with
  | Connection pending :: events' => pending :: before_interrupt events'
  | _ => []
  end.

(** The root directory is there and the port can be bound. *)
Definition listening (s : script) (w : OS.world) : bool :=
  (OS.path_exists w (DIRECTORY s)
   && match OS.bind_error w (PORT s) with
      | None => true
      | Some _ => false
      end)%bool.

(** How many effects of a trace satisfy [p]. *)
Definition count (p : effect -> bool) (t : list effect) : nat :=
  List.length (filter p t).

Definition is_SocketCreate (e : effect) : bool :=
  match e with SocketCreate => true | _ => false end.

Definition is_OpenBrowser (e : effect) : bool :=
  match e with OpenBrowser _ => true | _ => false end.

Definition is_Response (e : effect) : bool :=
  match e with Response _ => true | _ => false end.

Definition is_Print (e : effect) : bool :=
  match e with Print _ => true | _ => false end.

(** The same world with another browser launcher. *)
Definition with_browser (b : string -> result bool) (w : OS.world)
  : OS.world :=
  {| OS.cwd := OS.cwd w; OS.script_file := OS.script_file w;
     OS.argv := OS.argv w; OS.fs := OS.fs w; OS.open_error := OS.open_error w;
     OS.bind_error := OS.bind_error w; OS.browser := b;
     OS.stdout_error := OS.stdout_error w |}.

(** The status line [send_response_only] buffers for [code] when it is
    given no message. *)
Definition status_line (pf : platform) (code : nat) : string :=
  protocol_version ++ " " ++ str code ++ " "
  ++ match responses pf code with
     | Some (shortmsg, _) => shortmsg
     | None => ""
     end ++ CRLF.

(** [m], started on a connection that is to be closed, leaves it so
    when it returns. *)
Definition stays_closed {A : Type} (m : method A) : Prop :=
  forall h,
    close_connection h = true ->
    wpe (fun _ => True) m (fun _ h' => close_connection h' = true) h.

End Scripts.

(* ===================================================================== *)
(** * Sample environments *)
(* ===================================================================== *)

Module Examples.

Import HttpServer Process SocketServer Scripts.

(** A platform with the reason phrases of the status codes the handler
    sends, and a plain reading of request paths. *)
Definition pf_demo : platform :=
  {| responses := fun code =>
       if Nat.eqb code 200 then Some ("OK", "Request fulfilled, document follows")
       else if Nat.eqb code 400
         then Some ("Bad Request", "Bad request syntax or unsupported method")
       else if Nat.eqb code 404
         then Some ("Not Found", "Nothing matches the given URI")
       else if Nat.eqb code 501
         then Some ("Not Implemented", "Server does not support this operation")
       else None;
     repr := fun text => "'" ++ text ++ "'";
     parse_version := fun version =>
       if String.eqb version "HTTP/1.1" then Some (1, 1)%Z
       else if String.eqb version "HTTP/1.0" then Some (1, 0)%Z
       else None;
     url_words := fun path =>
       filter (fun word => negb (String.eqb word "")) (split_on "/" path);
     url_trailing_slash := endswith_slash;
     url_path_endswith_slash := endswith_slash;
     redirect_location := fun path => path ++ "/";
     guess_type := fun _ => "text/html";
     date_time_string := fun _ => "Thu, 01 Jan 1970 00:00:00 GMT";
     version_string := "SimpleHTTP/0.6 Python/3.11.2";
     error_page := fun code message explain =>
       "<h1>Error response</h1><p>Message: " ++ message ++ ".</p>";
     listing_page := fun path names => "<ul>" ++ join names ++ "</ul>";
     filesystem_encoding := "utf-8" |}.

(** A project checkout with both served directories, each holding an
    index page. *)
Definition site_fs (path : string) : option OS.node :=
  let p := OS.normpath path in
  if String.eqb p "/home/dev/site/public"
  then Some (OS.Dir (Some ["index.html"]))
  else if String.eqb p "/home/dev/site/public/index.html"
  then Some (OS.File (Some "<h1>Resume</h1>") 1700000000%N)
  else if String.eqb p "/home/dev/site/frontend"
  then Some (OS.Dir (Some ["index.html"]))
  else if String.eqb p "/home/dev/site/frontend/index.html"
  then Some (OS.File (Some "<h1>Resume on AWS</h1>") 1700000000%N)
  else None.

(** [open] rejects a path with an embedded null byte. *)
Definition open_error_demo (p : string) : option string :=
  if has_nul p then Some "embedded null byte" else None.

(** Started from the project root, ports free, a browser that opens, a
    console that takes every line. *)
Definition site : OS.world :=
  {| OS.cwd := "/home/dev/site";
     OS.script_file := "/home/dev/site/preview-server.py";
     OS.argv := [];
     OS.fs := site_fs;
     OS.open_error := open_error_demo;
     OS.bind_error := fun _ => None;
     OS.browser := fun _ => Ok true;
     OS.stdout_error := fun _ => None |}.

(** The same machine without the served directories. *)
Definition site_without_root : OS.world :=
  {| OS.cwd := "/home/dev/site";
     OS.script_file := "/home/dev/site/preview-server.py";
     OS.argv := [];
     OS.fs := fun _ => None;
     OS.open_error := open_error_demo;
     OS.bind_error := fun _ => None;
     OS.browser := fun _ => Ok true;
     OS.stdout_error := fun _ => None |}.

(** [public] and [frontend] exist but are regular files. *)
Definition site_root_is_file : OS.world :=
  {| OS.cwd := "/home/dev/site";
     OS.script_file := "/home/dev/site/preview-server.py";
     OS.argv := [];
     OS.fs := fun path =>
       let p := OS.normpath path in
       if (String.eqb p "/home/dev/site/public"
           || String.eqb p "/home/dev/site/frontend")%bool
       then Some (OS.File (Some "not a directory") 1700000000%N)
       else None;
     OS.open_error := open_error_demo;
     OS.bind_error := fun _ => None;
     OS.browser := fun _ => Ok true;
     OS.stdout_error := fun _ => None |}.

(** No usable browser: [webbrowser.open] returns [False]. *)
Definition site_without_browser : OS.world :=
  {| OS.cwd := "/home/dev/site";
     OS.script_file := "/home/dev/site/preview-server.py";
     OS.argv := [];
     OS.fs := site_fs;
     OS.open_error := open_error_demo;
     OS.bind_error := fun _ => None;
     OS.browser := fun _ => Ok false;
     OS.stdout_error := fun _ => None |}.

(** A browser launcher that raises. *)
Definition site_browser_raises : OS.world :=
  {| OS.cwd := "/home/dev/site";
     OS.script_file := "/home/dev/site/preview-server.py";
     OS.argv := [];
     OS.fs := site_fs;
     OS.open_error := open_error_demo;
     OS.bind_error := fun _ => None;
     OS.browser := fun _ => Raise (OtherError "webbrowser.Error");
     OS.stdout_error := fun _ => None |}.

(** Ports 8080 and 8081 are taken by another process. *)
Definition site_port_in_use : OS.world :=
  {| OS.cwd := "/home/dev/site";
     OS.script_file := "/home/dev/site/preview-server.py";
     OS.argv := [];
     OS.fs := site_fs;
     OS.open_error := open_error_demo;
     OS.bind_error := fun _ => Some "[Errno 98] Address already in use";
     OS.browser := fun _ => Ok true;
     OS.stdout_error := fun _ => None |}.

(** The handler of script [s] once [parse_request] has read
    [GET / HTTP/1.1] without headers of interest. *)
Definition parsed_get_root (s : script) : handler :=
  set_path "/"
    (set_command (Some "GET")
       (set_request_version "HTTP/1.1" (new_handler (cls := Handler s)))).

(** A request with the given request line and no headers of interest. *)
Definition request_line (line : string) : request :=
  {| raw_requestline := line ++ CRLF; request_headers := Headers None |}.

(** The same machine with a console whose encoding is ASCII: [print]
    raises [UnicodeEncodeError] for a line with any other character. *)
Definition ascii_console (w : OS.world) : OS.world :=
  {| OS.cwd := OS.cwd w; OS.script_file := OS.script_file w;
     OS.argv := OS.argv w; OS.fs := OS.fs w; OS.open_error := OS.open_error w;
     OS.bind_error := OS.bind_error w; OS.browser := OS.browser w;
     OS.stdout_error := fun line =>
       if isascii line then None
       else Some (ValueError "'ascii' codec can't encode character") |}.

Definition get_index_http11 : request := request_line "GET /index.html HTTP/1.1".
Definition get_index_http09 : request := request_line "GET /index.html".
Definition get_missing_http09 : request := request_line "GET /missing.html".
Definition post_http11 : request := request_line "POST /index.html HTTP/1.1".

(** The handler of [preview-aws.py] once [parse_request] has read the
    HTTP/0.9 request line [GET /index.html]. *)
Definition parsed_get_index_http09 : handler :=
  set_path "/index.html"
    (set_command (Some "GET") (new_handler (cls := Handler preview_aws))).

(** [GET /<NUL> HTTP/1.1]: the path holds a null byte. *)
Definition get_nul_http11 : request :=
  request_line ("GET /" ++ String "000" "" ++ " HTTP/1.1").

End Examples.

(* ===================================================================== *)
(** * Facts about strings *)
(* ===================================================================== *)

Module StringFacts.

Import Scripts.

Lemma append_assoc (a b c : string) : (a ++ b) ++ c = a ++ (b ++ c).
Proof.
  induction a as [|x a IH]; simpl; [reflexivity|].
  now rewrite IH.
Qed.

Lemma append_empty_r (a : string) : a ++ "" = a.
Proof.
  induction a as [|x a IH]; simpl; [reflexivity|].
  now rewrite IH.
Qed.

Lemma join_app (xs ys : list string) :
  join (xs ++ ys)%list = join xs ++ join ys.
Proof.
  induction xs as [|x xs IH]; simpl; [reflexivity|].
  now rewrite IH, append_assoc.
Qed.

Lemma prefix_append (p s : string) : String.prefix p (p ++ s) = true.
Proof.
  induction p as [|x p IH]; simpl.
  - now destruct s.
  - destruct (ascii_dec x x) as [_|N]; [exact IH | now elim N].
Qed.

Lemma contains_unfold (sub s : string) :
  contains sub s
  = (String.prefix sub s
     || match s with
        | EmptyString => false
        | String _ s' => contains sub s'
        end)%bool.
Proof. destruct s; reflexivity. Qed.

Lemma contains_append (sub a b : string) :
  contains sub (a ++ sub ++ b) = true.
Proof.
  induction a as [|x a IH]; rewrite contains_unfold.
  - change ("" ++ sub ++ b) with (sub ++ b).
    now rewrite prefix_append.
  - change (String x a ++ sub ++ b) with (String x (a ++ sub ++ b)).
    cbv iota. rewrite IH. apply orb_true_r.
Qed.

Lemma startswith_append (p s : string) : startswith (p ++ s) p = true.
Proof. apply prefix_append. Qed.

End StringFacts.

(* ===================================================================== *)
(** * Reasoning about handler methods *)
(* ===================================================================== *)

Module HandlerFacts.

Import HttpServer Scripts StringFacts.
Local Open Scope method_scope.

Lemma wp_ret {A : Type} (a : A) (Q : A -> handler -> Prop) h :
  Q a h -> wp (ret a) Q h.
Proof. intros HQ. exists a, h. split; [reflexivity | exact HQ]. Qed.

Lemma wp_bind {A B : Type} (m : method A) (k : A -> method B)
  (Q : B -> handler -> Prop) h :
  wp m (fun a h' => wp (k a) Q h') h -> wp (bind m k) Q h.
Proof.
  intros (a & h1 & E1 & b & h2 & E2 & HQ).
  exists b, h2. split; [|exact HQ].
  unfold bind. now rewrite E1.
Qed.

Lemma wp_self (Q : handler -> handler -> Prop) h :
  Q h h -> wp self Q h.
Proof. intros HQ. exists h, h. split; [reflexivity | exact HQ]. Qed.

Lemma wp_assign (f : handler -> handler) (Q : unit -> handler -> Prop) h :
  Q tt (f h) -> wp (assign f) Q h.
Proof. intros HQ. exists tt, (f h). split; [reflexivity | exact HQ]. Qed.

Lemma wp_weaken {A : Type} (m : method A) (Q Q' : A -> handler -> Prop) h :
  wp m Q h -> (forall a h', Q a h' -> Q' a h') -> wp m Q' h.
Proof.
  intros (a & h' & E & HQ) Himp. exists a, h'. split; [exact E | auto].
Qed.

(** A method that returns normally raises nothing. *)
Lemma wp_wpe {A : Type} (R : exn -> Prop) (m : method A)
  (Q : A -> handler -> Prop) h :
  wp m Q h -> wpe R m Q h.
Proof. intros (a & h' & E & HQ). unfold wpe. now rewrite E. Qed.

Lemma wpe_wp {A : Type} (m : method A) (Q : A -> handler -> Prop) h :
  wpe no_exception m Q h -> wp m Q h.
Proof.
  unfold wpe, wp. destruct (m h) as [[a h']|e]; [eauto | contradiction].
Qed.

Lemma wpe_bind {A B : Type} (R : exn -> Prop) (m : method A)
  (k : A -> method B) (Q : B -> handler -> Prop) h :
  wpe R m (fun a h' => wpe R (k a) Q h') h -> wpe R (bind m k) Q h.
Proof. unfold wpe, bind. destruct (m h) as [[a h']|e]; auto. Qed.

Lemma wpe_weaken {A : Type} (R R' : exn -> Prop) (m : method A)
  (Q Q' : A -> handler -> Prop) h :
  wpe R m Q h ->
  (forall a h', Q a h' -> Q' a h') -> (forall e, R e -> R' e) ->
  wpe R' m Q' h.
Proof. unfold wpe. destruct (m h) as [[a h']|e]; auto. Qed.

Lemma emits_refl h : emits "" h h.
Proof.
  unfold emits, same_request. rewrite append_empty_r. repeat split.
Qed.

Lemma emits_trans o1 o2 h1 h2 h3 :
  emits o1 h1 h2 -> emits o2 h2 h3 -> emits (o1 ++ o2) h1 h3.
Proof.
  unfold emits, same_request.
  intros ((D1 & C1 & P1 & V1 & I1) & W1) ((D2 & C2 & P2 & V2 & I2) & W2).
  rewrite <- append_assoc, <- W1. repeat split; congruence.
Qed.

Lemma emits_version o h h' :
  emits o h h' -> request_version h' = request_version h.
Proof. intros ((_ & _ & _ & V & _) & _). exact V. Qed.

Lemma writes_ret {A : Type} (a : A) : writes (ret a).
Proof. intros h. apply wp_ret. exists "". apply emits_refl. Qed.

Lemma writes_bind {A B : Type} (m : method A) (k : A -> method B) :
  writes m -> (forall a, writes (k a)) -> writes (bind m k).
Proof.
  intros Hm Hk h. apply wp_bind.
  eapply wp_weaken; [apply Hm|].
  intros a h1 (o1 & E1). eapply wp_weaken; [apply Hk|].
  intros b h2 (o2 & E2). exists (o1 ++ o2). eapply emits_trans; eauto.
Qed.

Lemma writes_self : writes self.
Proof. intros h. apply wp_self. exists "". apply emits_refl. Qed.

Lemma writes_set_headers_buffer b : writes (assign (set_headers_buffer b)).
Proof.
  intros h. apply wp_assign. exists "".
  unfold emits, same_request; simpl. rewrite append_empty_r. repeat split.
Qed.

Lemma writes_set_close_connection c :
  writes (assign (set_close_connection c)).
Proof.
  intros h. apply wp_assign. exists "".
  unfold emits, same_request; simpl. rewrite append_empty_r. repeat split.
Qed.

Lemma writes_wfile_write data : writes (assign (wfile_write data)).
Proof.
  intros h. apply wp_assign. exists data.
  unfold emits, same_request; simpl. repeat split.
Qed.

Lemma writes_buffer_append line : writes (buffer_append line).
Proof.
  intros h. apply wp_assign. exists "".
  unfold emits, same_request. rewrite append_empty_r.
  destruct (_headers_buffer h); simpl; repeat split.
Qed.

Create HintDb writes.

#[local] Hint Resolve writes_ret writes_self writes_set_headers_buffer
  writes_set_close_connection writes_wfile_write writes_buffer_append
  : writes.

(** Closes [writes m] for a method built from the pieces above. *)
Ltac writes_tac :=
  repeat first
    [ apply writes_bind; [| intros ?]
    | solve [auto with writes]
    | match goal with
      | |- writes (if ?b then _ else _) => destruct b
      | |- writes (match ?x with _ => _ end) => destruct x
      end ].

Lemma writes_send_response_only pf code message :
  writes (send_response_only pf code message).
Proof. unfold send_response_only. writes_tac. Qed.

Lemma writes_send_header keyword value : writes (send_header keyword value).
Proof. unfold send_header. writes_tac. Qed.

#[local] Hint Resolve writes_send_response_only writes_send_header : writes.

Lemma writes_send_response pf code message :
  writes (send_response pf code message).
Proof. unfold send_response. writes_tac. Qed.

#[local] Hint Resolve writes_send_response : writes.

Lemma writes_flush_headers : writes flush_headers.
Proof. unfold flush_headers. writes_tac. Qed.

(** ** Methods that only buffer header lines *)

Lemma same_request_refl h : same_request h h.
Proof. unfold same_request. repeat split. Qed.

Lemma same_request_trans h1 h2 h3 :
  same_request h1 h2 -> same_request h2 h3 -> same_request h1 h3.
Proof.
  unfold same_request.
  intros (D1 & C1 & P1 & V1 & I1) (D2 & C2 & P2 & V2 & I2).
  repeat split; congruence.
Qed.

Lemma appended_refl h : appended [] h h.
Proof.
  split; [apply same_request_refl | split; [reflexivity|]].
  now rewrite app_nil_r.
Qed.

Lemma appended_trans l1 l2 h1 h2 h3 :
  appended l1 h1 h2 -> appended l2 h2 h3 -> appended (l1 ++ l2) h1 h3.
Proof.
  intros (S1 & W1 & B1) (S2 & W2 & B2).
  split; [eapply same_request_trans; eauto | split; [congruence|]].
  now rewrite B2, B1, app_assoc.
Qed.

Lemma buffers_ret {A : Type} (a : A) : buffers (ret a).
Proof.
  intros h. apply wp_ret. exists []. split; [constructor | apply appended_refl].
Qed.

Lemma buffers_self : buffers self.
Proof.
  intros h. apply wp_self. exists []. split; [constructor | apply appended_refl].
Qed.

Lemma buffers_bind {A B : Type} (m : method A) (k : A -> method B) :
  buffers m -> (forall a, buffers (k a)) -> buffers (bind m k).
Proof.
  intros Hm Hk h. apply wp_bind.
  eapply wp_weaken; [apply Hm|].
  intros a h1 (l1 & F1 & A1). eapply wp_weaken; [apply Hk|].
  intros b h2 (l2 & F2 & A2). exists (l1 ++ l2)%list.
  split; [apply Forall_app; split; assumption|].
  eapply appended_trans; eauto.
Qed.

Lemma buffers_set_close_connection c :
  buffers (assign (set_close_connection c)).
Proof.
  intros h. apply wp_assign. exists []. split; [constructor|].
  unfold appended, same_request, buffered; simpl. rewrite app_nil_r.
  repeat split.
Qed.

Lemma buffers_buffer_append line :
  header_like line -> buffers (buffer_append line).
Proof.
  intros Hl h. apply wp_assign. exists [line].
  split; [constructor; [exact Hl | constructor]|].
  unfold appended, same_request, buffered.
  destruct (_headers_buffer h); simpl; repeat split.
Qed.

Lemma header_like_status code message :
  header_like (protocol_version ++ " " ++ str code ++ " " ++ message ++ CRLF).
Proof. left. eauto. Qed.

Lemma header_like_header keyword value :
  header_like (keyword ++ ": " ++ value ++ CRLF).
Proof. right. exists keyword, value. reflexivity. Qed.

Lemma header_like_injected s : Forall header_like (injected s).
Proof.
  unfold injected. apply Forall_forall. intros line H.
  apply in_map_iff in H. destruct H as ([k v] & <- & _).
  apply header_like_header.
Qed.

Create HintDb buffers.

#[local] Hint Resolve buffers_ret buffers_self buffers_set_close_connection
  : buffers.
#[local] Hint Extern 1 (buffers (buffer_append _)) =>
  (apply buffers_buffer_append;
   first [apply header_like_status | apply header_like_header]) : buffers.

(** Closes [buffers m] for a method built from the pieces above. *)
Ltac buffers_tac :=
  repeat first
    [ solve [auto with buffers]
    | apply buffers_bind; [| intros ?]
    | match goal with
      | |- buffers (if ?b then _ else _) => destruct b
      | |- buffers (match ?x with _ => _ end) => destruct x
      end ].

Lemma buffers_send_response_only pf code message :
  buffers (send_response_only pf code message).
Proof. unfold send_response_only. cbv zeta. buffers_tac. Qed.

Lemma buffers_send_header keyword value : buffers (send_header keyword value).
Proof. unfold send_header. buffers_tac. Qed.

#[local] Hint Resolve buffers_send_response_only buffers_send_header : buffers.

Lemma buffers_send_response pf code message :
  buffers (send_response pf code message).
Proof. unfold send_response. buffers_tac. Qed.

Lemma buffers_translate_path pf p : buffers (translate_path pf p).
Proof. unfold translate_path. cbv zeta. buffers_tac. Qed.

#[local] Hint Resolve buffers_send_response buffers_translate_path : buffers.

(** ** The hooks of the two scripts *)

Lemma join_snoc (buf : list string) (lines : list string) :
  join (buf ++ lines ++ [CRLF])%list = join buf ++ join lines ++ CRLF.
Proof.
  rewrite !join_app. reflexivity.
Qed.

Lemma send_header_off keyword value h :
  String.eqb (request_version h) "HTTP/0.9" = true ->
  String.eqb (lower keyword) "connection" = false ->
  send_header keyword value h = Ok (tt, h).
Proof.
  intros E K. unfold send_header, bind, self. rewrite E, K. reflexivity.
Qed.

Lemma send_header_on keyword value h :
  String.eqb (request_version h) "HTTP/0.9" = false ->
  String.eqb (lower keyword) "connection" = false ->
  send_header keyword value h
  = Ok (tt, set_headers_buffer
              (Some (buffered h ++ [header_line keyword value])%list) h).
Proof.
  intros E K. unfold send_header, bind, self, buffer_append, assign, buffered.
  rewrite E, K. cbv beta iota. unfold negb.
  destruct (_headers_buffer h); reflexivity.
Qed.

Lemma end_headers_off h :
  String.eqb (request_version h) "HTTP/0.9" = true ->
  HttpServer.end_headers h = Ok (tt, h).
Proof.
  intros E. unfold HttpServer.end_headers, bind, self. rewrite E. reflexivity.
Qed.

Lemma end_headers_on buf h :
  String.eqb (request_version h) "HTTP/0.9" = false ->
  HttpServer.end_headers (set_headers_buffer (Some buf) h)
  = Ok (tt, flushed (join (buf ++ [CRLF])) h).
Proof.
  intros E. unfold HttpServer.end_headers, bind, self.
  change (request_version (set_headers_buffer (Some buf) h))
    with (request_version h).
  rewrite E. reflexivity.
Qed.

Lemma hook_preview_server h :
  PreviewServer.end_headers h = Ok (tt, hook_result preview_server h).
Proof.
  unfold hook_result, PreviewServer.end_headers.
  destruct (String.eqb (request_version h) "HTTP/0.9") eqn:E.
  - unfold bind. rewrite !send_header_off by (exact E || reflexivity).
    now rewrite end_headers_off.
  - unfold bind. rewrite (send_header_on _ _ h E) by reflexivity.
    rewrite send_header_on by (exact E || reflexivity).
    rewrite send_header_on by (exact E || reflexivity).
    cbv beta iota.
    match goal with
    | |- HttpServer.end_headers
           (set_headers_buffer ?b (set_headers_buffer _ (set_headers_buffer _ ?g)))
         = _ =>
        change (HttpServer.end_headers (set_headers_buffer b g)
                = Ok (tt, flushed (join (buffered h) ++ join (injected preview_server) ++ CRLF) h))
    end.
    cbn [buffered _headers_buffer set_headers_buffer].
    rewrite end_headers_on by exact E.
    rewrite <- !app_assoc. cbn [app].
    now rewrite <- (join_snoc (buffered h) (injected preview_server)).
Qed.

Lemma hook_preview_aws h :
  PreviewAws.end_headers h = Ok (tt, hook_result preview_aws h).
Proof.
  unfold hook_result, PreviewAws.end_headers.
  destruct (String.eqb (request_version h) "HTTP/0.9") eqn:E.
  - unfold bind. rewrite !send_header_off by (exact E || reflexivity).
    now rewrite end_headers_off.
  - unfold bind. rewrite (send_header_on _ _ h E) by reflexivity.
    rewrite end_headers_on by exact E.
    rewrite <- !app_assoc. cbn [app].
    now rewrite <- (join_snoc (buffered h) (injected preview_aws)).
Qed.

Lemma hook_script (s : script) h :
  self_end_headers (HandlerClass := Handler s) h = Ok (tt, hook_result s h).
Proof.
  destruct s; [apply hook_preview_server | apply hook_preview_aws].
Qed.

(** ** Responses of the handler of a script *)

Section Responses.

Variable s : script.
Variable pf : platform.
Variable w : OS.world.

Lemma responds_weaken (R R' : exn -> Prop) {A : Type} (m : method A) :
  (forall e, R e -> R' e) -> responds R s m -> responds R' s m.
Proof.
  intros HR Hm h. eapply wpe_weaken; [apply Hm | auto | exact HR].
Qed.

Lemma responds_raise (R : exn -> Prop) {A : Type} (e : exn) :
  R e -> responds R s (raise (A := A) e).
Proof. intros He h. exact He. Qed.

Lemma responds_hook R :
  responds R s (self_end_headers (HandlerClass := Handler s)).
Proof.
  intros h. unfold wpe. rewrite hook_script.
  unfold hook_result.
  destruct (String.eqb (request_version h) "HTTP/0.9") eqn:E.
  - exists "". split; [apply emits_refl|].
    intros N. apply String.eqb_eq in E. contradiction.
  - exists (join (buffered h) ++ join (injected s) ++ CRLF).
    split.
    + unfold emits, same_request, flushed; simpl. repeat split.
    + intros _. exists [], "". split; [constructor|].
      cbn [join fold_right]. now rewrite append_empty_r.
Qed.

Lemma buffers_then_responds R {A B : Type} (m : method A) (k : A -> method B) :
  buffers m -> (forall a, responds R s (k a)) -> responds R s (bind m k).
Proof.
  intros Hm Hk h. apply wpe_bind. apply wp_wpe.
  eapply wp_weaken; [apply Hm|].
  intros a h1 (l1 & F1 & S1 & W1 & B1).
  eapply wpe_weaken; [apply Hk | | auto].
  intros b h2 (out & (S2 & W2) & Ans). exists out.
  split; [split; [eapply same_request_trans; eauto | congruence]|].
  intros N.
  assert (V1 : request_version h1 = request_version h) by apply S1.
  rewrite V1, B1 in Ans.
  destruct (Ans N) as (l2 & body & F2 & ->).
  exists (l1 ++ l2)%list, body.
  split; [apply Forall_app; split; assumption|].
  now rewrite !join_app, !append_assoc.
Qed.

Lemma responds_then_writes R {A B : Type} (m : method A) (k : A -> method B) :
  responds R s m -> (forall a, writes (k a)) -> responds R s (bind m k).
Proof.
  intros Hm Hk h. apply wpe_bind.
  eapply wpe_weaken; [apply Hm | | auto].
  intros a h1 (o1 & E1 & Ans). apply wp_wpe.
  eapply wp_weaken; [apply Hk|].
  intros b h2 (o2 & E2). exists (o1 ++ o2).
  split; [eapply emits_trans; eauto|].
  intros N. destruct (Ans N) as (lines & body & F & ->).
  exists lines, (body ++ o2). split; [exact F|].
  now rewrite !append_assoc.
Qed.

(** [open] fails by [OSError], which [send_head] catches, or by the
    [ValueError] of the path. *)
Lemma open_rb_raises p e :
  OS.open_rb w p = Raise e ->
  (exists what, e = OSError what) \/ open_failure w e.
Proof.
  unfold OS.open_rb.
  destruct (OS.open_error w p) as [what|] eqn:E.
  - intros H. injection H as <-. right. exists p, what. auto.
  - destruct (OS.stat w p) as [[[content|] mtime | listing]|];
      intros H; try discriminate H; injection H as <-; left; eauto.
Qed.

(** Closes [responds R m] for a method that buffers headers, ends them
    by [self.end_headers()] and then only writes. *)
Ltac responds_with known :=
  repeat first
    [ apply responds_hook
    | known
    | apply buffers_then_responds; [solve [buffers_tac] | intros ?]
    | apply responds_then_writes; [| intros ?; solve [writes_tac]]
    | match goal with
      | |- responds _ s (if ?b then _ else _) => destruct b
      | |- responds _ s (match ?x with _ => _ end) => destruct x
      end ].

Lemma responds_send_error R code message explain :
  responds R s (send_error (cls := Handler s) pf code message explain).
Proof.
  unfold send_error.
  destruct (match responses pf code with
            | Some sl => sl
            | None => ("???", "???")
            end) as [shortmsg longmsg].
  responds_with fail.
Qed.

Lemma responds_list_directory R p :
  responds R s (list_directory (cls := Handler s) pf w p).
Proof.
  unfold list_directory.
  responds_with ltac:(apply responds_send_error).
Qed.

(** The part of [send_head] that serves a regular file. *)
Lemma responds_serve_file p ctype :
  responds (open_failure w) s
    (if endswith_slash p then
       send_error (cls := Handler s) pf 404 (Some "File not found") None ;;
       ret None
     else
       match OS.open_rb w p with
       | Raise (OSError _) =>
           send_error (cls := Handler s) pf 404 (Some "File not found") None ;;
           ret None
       | Raise e => raise e
       | Ok (content, mtime) =>
           h <- self ;;
           if match if_modified_since h with
              | Some ims => N.leb mtime ims
              | None => false
              end
           then
             send_response pf 304 None ;;
             self_end_headers (HandlerClass := Handler s) ;;
             ret None
           else
             send_response pf 200 None ;;
             send_header "Content-type" ctype ;;
             send_header "Content-Length" (str (String.length content)) ;;
             send_header "Last-Modified" (date_time_string pf (Some mtime)) ;;
             self_end_headers (HandlerClass := Handler s) ;;
             ret (Some content)
       end).
Proof.
  destruct (endswith_slash p).
  { responds_with ltac:(apply responds_send_error). }
  destruct (OS.open_rb w p) as [[content mtime]|e] eqn:E.
  { responds_with fail. }
  apply open_rb_raises in E. destruct E as [(what & ->) | E].
  { responds_with ltac:(apply responds_send_error). }
  destruct E as (p' & what & E & ->).
  apply responds_raise. exists p', what. split; [exact E | reflexivity].
Qed.

Lemma responds_send_head :
  responds (open_failure w) s (send_head (cls := Handler s) pf w).
Proof.
  unfold send_head. cbv zeta.
  apply buffers_then_responds; [apply buffers_self | intros h0].
  apply buffers_then_responds; [apply buffers_translate_path | intros p].
  destruct (OS.isdir w p); [| apply responds_serve_file].
  destruct (negb _); [responds_with fail |].
  destruct (OS.isfile w _); [apply responds_serve_file |].
  destruct (OS.isfile w _); [apply responds_serve_file |].
  apply responds_list_directory.
Qed.

Lemma responds_do_GET :
  responds (open_failure w) s (do_GET (cls := Handler s) pf w).
Proof.
  unfold do_GET.
  apply responds_then_writes; [apply responds_send_head|].
  intros [content|]; auto with writes.
Qed.

Lemma responds_do_HEAD :
  responds (open_failure w) s (do_HEAD (cls := Handler s) pf w).
Proof.
  unfold do_HEAD.
  apply responds_then_writes; [apply responds_send_head|].
  intros f. auto with writes.
Qed.

(** ** Parsing and dispatch *)

Lemma responds_replied R {A : Type} (m : method A) h0 h :
  responds R s m -> quiet h0 h -> wpe R m (fun _ h' => replied s h0 h') h.
Proof.
  intros Hm (D & W & B). eapply wpe_weaken; [apply Hm | | auto].
  intros a h' (out & ((D' & _ & _ & V & _) & W') & Ans).
  split; [congruence|]. exists out. split; [congruence|].
  now rewrite V, <- B.
Qed.

Lemma wp_error_reply code message explain h0 h :
  quiet h0 h ->
  wp (send_error (cls := Handler s) pf code message explain ;; ret false)
     (parsed s h0) h.
Proof.
  intros Hq. apply wp_bind. apply wpe_wp.
  eapply wpe_weaken;
    [apply (responds_replied no_exception _ h0 h
              (responds_send_error no_exception _ _ _) Hq)
    | | intros e He; exact He].
  intros u h' Hr. apply wp_ret. exact Hr.
Qed.

Lemma quiet_http09 h0 h :
  quiet h0 h -> request_version h = "HTTP/0.9" -> replied s h0 h.
Proof.
  intros (D & W & B) V. split; [exact D|]. exists "".
  split; [now rewrite append_empty_r|].
  intros N. contradiction.
Qed.

(** One stage of a parser that stops at the first failure. *)
Lemma wp_stage (m : method bool) (k : bool -> method bool) h0 h :
  wp m (parsed s h0) h ->
  k false = ret false ->
  (forall h1, quiet h0 h1 -> wp (k true) (parsed s h0) h1) ->
  wp (bind m k) (parsed s h0) h.
Proof.
  intros Hm Hf Ht. apply wp_bind. eapply wp_weaken; [exact Hm|].
  intros [|] h1 H1.
  - apply Ht. exact H1.
  - rewrite Hf. apply wp_ret. exact H1.
Qed.

(** [parse_request] never raises: it leaves the request parsed and
    nothing sent, or has sent an error response. *)
Lemma parse_request_parsed r h :
  wp (parse_request (cls := Handler s) pf r) (parsed s h) h.
Proof.
  unfold parse_request. cbv zeta.
  apply wp_bind, wp_assign. apply wp_bind, wp_assign. apply wp_bind, wp_assign.
  set (h3 := set_close_connection true _).
  assert (Q3 : quiet h h3) by (repeat split; reflexivity).
  assert (V3 : request_version h3 = "HTTP/0.9") by reflexivity.
  clearbody h3.
  destruct (Nat.eqb _ 0).
  { apply wp_ret. apply quiet_http09; assumption. }
  apply wp_stage; [| reflexivity |].
  { destruct (Nat.leb 3 _); [| apply wp_ret; exact Q3].
    destruct (parse_version pf _) as [[major minor]|];
      [| apply wp_error_reply; exact Q3].
    destruct (_ || _)%bool; [apply wp_error_reply; exact Q3 |].
    apply wp_bind, wp_assign, wp_ret.
    destruct Q3 as (D & W & B). repeat split; assumption. }
  clear h3 Q3 V3. intros h3 Q3. cbn [negb].
  destruct (negb _); [apply wp_error_reply; exact Q3 |].
  apply wp_stage; [| reflexivity |].
  { destruct (Nat.eqb _ 2); [| apply wp_ret; exact Q3].
    apply wp_bind, wp_assign.
    assert (Q4 : quiet h (set_close_connection true h3))
      by (destruct Q3 as (D & W & B); repeat split; assumption).
    destruct (negb _); [apply wp_error_reply; exact Q4 |].
    apply wp_ret. exact Q4. }
  clear h3 Q3. intros h3 Q3. cbn [negb].
  apply wp_bind, wp_assign. apply wp_bind, wp_assign.
  set (h5 := set_path _ _).
  assert (Q5 : quiet h h5)
    by (destruct Q3 as (D & W & B); repeat split; assumption).
  clearbody h5.
  destruct (request_headers r) as [ims | err | err];
    [| apply wp_error_reply; exact Q5 | apply wp_error_reply; exact Q5].
  apply wp_bind, wp_assign, wp_ret.
  destruct Q5 as (D & W & B); repeat split; assumption.
Qed.

(** A request is answered unless [open] raises its [ValueError]: the
    handler then keeps the served directory and, unless the connection
    was at its end, has sent one response, which has the header section
    of the script when the request is not an HTTP/0.9 one. *)
Lemma handle_one_request_replied r h :
  wpe (open_failure w) (handle_one_request (cls := Handler s) pf w r)
     (fun _ h' =>
        directory h' = directory h
        /\ exists out, wfile h' = wfile h ++ out
           /\ (raw_requestline r <> ""
               -> answered s (buffered h) (request_version h') out))
     h.
Proof.
  assert (R : forall h0 h', replied s h0 h' ->
           directory h' = directory h0
           /\ exists out, wfile h' = wfile h0 ++ out
              /\ (raw_requestline r <> ""
                  -> answered s (buffered h0) (request_version h') out)).
  { intros h0 h' (D & out & W & Ans). split; [exact D|].
    exists out. split; [exact W | intros _; exact Ans]. }
  unfold handle_one_request.
  destruct (Nat.ltb _ _).
  { apply wpe_bind, wp_wpe, wp_assign. apply wpe_bind, wp_wpe, wp_assign.
    eapply wpe_weaken; [| | intros e He; exact He].
    - apply (responds_replied _ _ h); [apply responds_send_error|].
      repeat split; reflexivity.
    - intros u h' Hr. apply R, Hr. }
  destruct (String.eqb _ "") eqn:Eraw.
  { apply wp_wpe, wp_assign. split; [reflexivity|]. exists "".
    split; [simpl; now rewrite append_empty_r|].
    intros N. apply String.eqb_eq in Eraw. contradiction. }
  apply wpe_bind, wp_wpe. eapply wp_weaken; [apply parse_request_parsed|].
  intros [|] h1 H1; cbn [negb]; [| apply wp_wpe, wp_ret, R, H1].
  apply wpe_bind, wp_wpe, wp_self. cbv zeta.
  eapply wpe_weaken; [| | intros e He; exact He].
  - apply (responds_replied _ _ h h1); [| exact H1].
    destruct (String.eqb _ "GET"); [apply responds_do_GET|].
    destruct (String.eqb _ "HEAD"); [apply responds_do_HEAD|].
    apply responds_send_error.
  - intros u h' Hr. apply R, Hr.
Qed.

End Responses.

End HandlerFacts.

(* ===================================================================== *)
(** * Reasoning about the process *)
(* ===================================================================== *)

Module ProcessFacts.

Import HttpServer Process SocketServer Scripts StringFacts HandlerFacts.
Local Open Scope method_scope.

(** ** The statements of [main], one at a time *)

Lemma bind_tell {A : Type} e (k : unit -> proc A) :
  Process.bind (tell e) k = (e :: fst (k tt), snd (k tt)).
Proof. unfold Process.bind, tell. destruct (k tt); reflexivity. Qed.

Lemma print_accepted w line :
  OS.stdout_error w line = None -> print w line = tell (Print line).
Proof. intros E. unfold print. now rewrite E. Qed.

Lemma print_refused w line e :
  OS.stdout_error w line = Some e -> print w line = Process.raise e.
Proof. intros E. unfold print. now rewrite E. Qed.

Lemma bind_print {A : Type} w line (k : unit -> proc A) :
  OS.stdout_error w line = None ->
  Process.bind (print w line) k = (Print line :: fst (k tt), snd (k tt)).
Proof. intros E. rewrite print_accepted by exact E. apply bind_tell. Qed.

Lemma bind_done {A B : Type} t (a : A) (k : A -> proc B) :
  Process.bind (t, Done a) k = ((t ++ fst (k a))%list, snd (k a)).
Proof. unfold Process.bind. destruct (k a); reflexivity. Qed.

(** The [try] around the browser launch completes when the console takes
    the line printed after it. *)
Lemma try_launch w u succ fb :
  console_accepts w ->
  try_except (Process.bind (webbrowser_open w u) (fun _ => print w succ))
    any_exception (fun _ => print w fb)
  = (OpenBrowser u
     :: match OS.browser w u with
        | Ok _ => [Print succ]
        | Raise _ => [Print fb]
        end, Done tt).
Proof.
  intros C. unfold webbrowser_open.
  destruct (OS.browser w u); cbn [Process.bind try_except any_exception];
    rewrite print_accepted by apply C; reflexivity.
Qed.

(** The [try] around the serve loop turns an interrupt into the farewell
    line and lets everything else through. *)
Lemma try_serve w (served : proc unit) fw :
  console_accepts w ->
  try_except served is_KeyboardInterrupt (fun _ => print w fw)
  = match served with
    | (t, Exc KeyboardInterrupt) => ((t ++ [Print fw])%list, Done tt)
    | other => other
    end.
Proof.
  intros C. destruct served as [t [u | e |]]; try reflexivity.
  destruct e; try reflexivity.
  cbn [try_except is_KeyboardInterrupt]. rewrite print_accepted by apply C.
  reflexivity.
Qed.

Lemma TCPServer_init_ok w host port cls :
  OS.bind_error w port = None ->
  TCPServer_init w (host, port) cls
  = ([SocketCreate; SocketBind host port; SocketListen],
     Done {| server_address := (host, port); RequestHandlerClass := cls |}).
Proof. intros B. unfold TCPServer_init. cbn [fst snd]. now rewrite B. Qed.

Lemma TCPServer_init_fails w host port cls what :
  OS.bind_error w port = Some what ->
  TCPServer_init w (host, port) cls
  = ([SocketCreate; SocketBind host port; SocketClose], Exc (OSError what)).
Proof. intros B. unfold TCPServer_init. cbn [fst snd]. now rewrite B. Qed.

(** The [with] statement closes the socket unless its body is still
    waiting. *)
Lemma with_server_close {A : Type} t0 (x : TCPServer)
  (body : TCPServer -> proc A) :
  with_ (t0, Done x) server_close body
  = ((t0 ++ fst (body x)
      ++ match snd (body x) with
         | Blocked => []
         | _ => [SocketClose]
         end)%list, snd (body x)).
Proof.
  unfold with_. destruct (body x) as [t [a | e |]];
    cbn [server_close tell fst snd]; rewrite ?app_nil_r; reflexivity.
Qed.

Section Connections.

Variable s : script.
Variable pf : platform.
Variable w : OS.world.

Lemma handle_one_request_raises r h :
  wpe (open_failure w) (handle_one_request (cls := Handler s) pf w r)
    (fun _ _ => True) h.
Proof.
  eapply wpe_weaken; [apply handle_one_request_replied | auto | auto].
Qed.

Lemma handle_more_raises pending :
  forall h,
    wpe (open_failure w) (handle_more (cls := Handler s) pf w pending)
      (fun _ _ => True) h.
Proof.
  induction pending as [|r pending IH]; intros h; cbn [handle_more];
    apply wpe_bind, wp_wpe, wp_self; destruct (close_connection h);
    try (apply wp_wpe, wp_ret; exact I);
    try apply handle_one_request_raises.
  apply wpe_bind.
  eapply wpe_weaken; [apply handle_one_request_raises | | auto].
  intros u h' _. apply IH.
Qed.

Lemma handle_raises pending h :
  wpe (open_failure w) (handle (cls := Handler s) pf w pending)
    (fun _ _ => True) h.
Proof.
  unfold handle. apply wpe_bind, wp_wpe, wp_assign. apply wpe_bind.
  eapply wpe_weaken; [apply handle_one_request_raises | | auto].
  intros u h' _. apply handle_more_raises.
Qed.

(** The only exception that leaves the handler of a script is the
    [ValueError] of [open]. *)
Lemma serve_connection_raises pending e :
  serve_connection (cls := Handler s) pf w pending = Raise e ->
  open_failure w e.
Proof.
  unfold serve_connection.
  pose proof (handle_raises pending (new_handler (cls := Handler s))) as H.
  unfold wpe in H.
  destruct (handle pf w pending new_handler) as [[u h']|e'];
    [discriminate|].
  intros E. injection E as <-. exact H.
Qed.

Lemma serve_forever_step pending events :
  serve_forever pf w (httpd s) (Connection pending :: events)
  = Process.bind (connection_effects s pf w pending, Done tt)
      (fun _ => serve_forever pf w (httpd s) events).
Proof.
  cbn [serve_forever RequestHandlerClass httpd]. unfold connection_effects.
  destruct (serve_connection pf w pending) as [bytes|e] eqn:E.
  - destruct (String.eqb bytes ""); reflexivity.
  - apply serve_connection_raises in E.
    destruct E as (p & what & _ & ->). reflexivity.
Qed.

(** The serve loop, for any sequence of events. *)
Lemma serve_forever_events events :
  serve_forever pf w (httpd s) events
  = (replies s pf w (before_interrupt events),
     if interrupted events then Exc KeyboardInterrupt else Blocked).
Proof.
  induction events as [|[pending|] events IH]; try reflexivity.
  rewrite serve_forever_step, bind_done, IH.
  cbn [fst snd before_interrupt]. unfold interrupted.
  cbn [existsb is_Interrupt orb]. reflexivity.
Qed.

Lemma before_interrupt_connections connections rest :
  before_interrupt (map Connection connections ++ rest)%list
  = (connections ++ before_interrupt rest)%list.
Proof.
  induction connections as [|c cs IH]; [reflexivity|].
  cbn [map app before_interrupt]. now rewrite IH.
Qed.

Lemma interrupted_connections connections rest :
  interrupted (map Connection connections ++ rest)%list = interrupted rest.
Proof.
  induction connections as [|c cs IH]; [reflexivity | exact IH].
Qed.

Lemma serve_forever_connections connections :
  serve_forever pf w (httpd s) (map Connection connections)
  = (replies s pf w connections, Blocked).
Proof.
  rewrite serve_forever_events.
  rewrite <- (app_nil_r (map Connection connections)).
  rewrite before_interrupt_connections, interrupted_connections.
  cbn [before_interrupt]. now rewrite app_nil_r.
Qed.

Lemma serve_forever_interrupt connections rest :
  serve_forever pf w (httpd s) (map Connection connections ++ Interrupt :: rest)
  = (replies s pf w connections, Exc KeyboardInterrupt).
Proof.
  rewrite serve_forever_events.
  rewrite before_interrupt_connections, interrupted_connections.
  cbn [before_interrupt]. now rewrite app_nil_r.
Qed.

End Connections.

(** ** What the body of the [with] statement can do *)

Lemma plain_bind {A B : Type} s (m : proc A) (k : A -> proc B) :
  Forall (plain s) (fst m) ->
  (forall a, Forall (plain s) (fst (k a))) ->
  Forall (plain s) (fst (Process.bind m k)).
Proof.
  intros Hm Hk. destruct m as [t [a | e |]]; cbn [Process.bind fst] in *;
    try exact Hm.
  specialize (Hk a). destruct (k a) as [t' st]. cbn [fst] in *.
  apply Forall_app. split; assumption.
Qed.

Lemma plain_try_except {A : Type} s (body : proc A) catches handler :
  Forall (plain s) (fst body) ->
  (forall e, Forall (plain s) (fst (handler e))) ->
  Forall (plain s) (fst (try_except body catches handler)).
Proof.
  intros Hb Hh. destruct body as [t [a | e |]]; cbn [try_except fst] in *;
    try exact Hb.
  destruct (catches e); [| exact Hb].
  specialize (Hh e). destruct (handler e) as [t' st]. cbn [fst] in *.
  apply Forall_app. split; assumption.
Qed.

Lemma plain_print s w line : Forall (plain s) (fst (print w line)).
Proof.
  unfold print. destruct (OS.stdout_error w line); cbn; repeat constructor.
Qed.

Lemma plain_webbrowser_open s w :
  Forall (plain s) (fst (webbrowser_open w (url s))).
Proof.
  unfold webbrowser_open. destruct (OS.browser w (url s)); cbn [fst];
    repeat constructor.
Qed.

Lemma plain_replies s pf w connections :
  Forall (plain s) (replies s pf w connections).
Proof.
  unfold replies. apply Forall_flat_map, Forall_forall. intros pending _.
  unfold connection_effects.
  destruct (serve_connection pf w pending) as [bytes|e];
    [destruct (String.eqb bytes "")|]; repeat constructor.
Qed.

Lemma plain_serve_forever s pf w events :
  Forall (plain s) (fst (serve_forever pf w (httpd s) events)).
Proof. rewrite serve_forever_events. apply plain_replies. Qed.

(** Closes [Forall (plain s) (fst m)] for the body of a [main]. *)
Ltac plain_tac s :=
  repeat first
    [ apply plain_print
    | apply (plain_webbrowser_open s)
    | apply (plain_serve_forever s)
    | apply plain_try_except; [| intros ?]
    | apply plain_bind; [| intros ?] ].

(** How many effects of a trace satisfy a test that no effect of the
    body of the [with] statement passes. *)
Lemma count_plain p s t :
  (forall e, plain s e -> p e = false) -> Forall (plain s) t -> count p t = 0.
Proof.
  intros Hp Ht. unfold count.
  induction Ht as [|e t He Ht IH]; [reflexivity|].
  cbn [filter]. now rewrite (Hp e He).
Qed.

Section Main.

Variable s : script.
Variable pf : platform.
Variable w : OS.world.
Variable events : list event.

(** The root directory is missing: the script only prints. *)
Lemma main_root_missing_plain :
  OS.path_exists w (DIRECTORY s) = false ->
  Forall (fun e => exists line, e = Print line) (fst (main s pf w events))
  /\ snd (main s pf w events) <> Blocked.
Proof.
  intros E. destruct s; cbn [main DIRECTORY] in *;
    [unfold PreviewServer.main | unfold PreviewAws.main];
    rewrite E; cbn [negb]; unfold print;
    repeat match goal with
           | |- context [OS.stdout_error w ?l] =>
               destruct (OS.stdout_error w l)
           end;
    cbn; split; try discriminate; repeat constructor; eauto.
Qed.

(** The root directory is missing and the console takes the error
    lines: they are printed and nothing else happens. *)
Lemma main_root_missing :
  OS.path_exists w (DIRECTORY s) = false ->
  (forall line, In line (not_found_lines s) -> OS.stdout_error w line = None) ->
  main s pf w events = (map Print (not_found_lines s), Done tt).
Proof.
  intros E C. destruct s; cbn [main DIRECTORY] in *;
    [unfold PreviewServer.main | unfold PreviewAws.main];
    rewrite E; cbn [negb].
  - rewrite bind_print by (apply C; cbn; auto).
    rewrite print_accepted by (apply C; cbn; auto). reflexivity.
  - rewrite print_accepted by (apply C; cbn; auto). reflexivity.
Qed.

(** The root directory is missing and the console refuses the first
    error line: the exception leaves [main]. *)
Lemma main_root_missing_refused e :
  OS.path_exists w (DIRECTORY s) = false ->
  OS.stdout_error w (hd "" (not_found_lines s)) = Some e ->
  main s pf w events = ([], Exc e).
Proof.
  intros E C. destruct s; cbn [main DIRECTORY] in *;
    [unfold PreviewServer.main | unfold PreviewAws.main];
    rewrite E; cbn [negb];
    rewrite (print_refused w _ e) by exact C; reflexivity.
Qed.

(** The root directory is there but the port cannot be bound. *)
Lemma main_bind_failure what :
  OS.path_exists w (DIRECTORY s) = true ->
  OS.bind_error w (PORT s) = Some what ->
  main s pf w events
  = ([SocketCreate; SocketBind "" (PORT s); SocketClose], Exc (OSError what)).
Proof.
  intros E B. destruct s; cbn [main DIRECTORY PORT] in *;
    [unfold PreviewServer.main | unfold PreviewAws.main];
    rewrite E; cbn [negb];
    rewrite (TCPServer_init_fails _ _ _ _ what) by exact B; reflexivity.
Qed.

(** The root directory is there and the port is bound: the socket is
    created, bound and listened on, the body of the [with] statement
    runs, and the socket is closed unless the body is still waiting. *)
Lemma main_listening :
  OS.path_exists w (DIRECTORY s) = true ->
  OS.bind_error w (PORT s) = None ->
  exists t st,
    Forall (plain s) t
    /\ main s pf w events
       = (([SocketCreate; SocketBind "" (PORT s); SocketListen] ++ t
           ++ match st with
              | Blocked => []
              | _ => [SocketClose]
              end)%list, st).
Proof.
  intros E B. destruct s; cbn [main DIRECTORY PORT] in *;
    [unfold PreviewServer.main | unfold PreviewAws.main];
    rewrite E; cbn [negb];
    rewrite TCPServer_init_ok by exact B;
    rewrite with_server_close;
    match goal with
    | |- context [(_ ++ fst ?b ++ _)%list] => exists (fst b), (snd b)
    end;
    (split; [| reflexivity]); cbv beta zeta.
  - plain_tac preview_server.
  - plain_tac preview_aws.
Qed.

(** The same when the console takes every line. *)
Lemma main_serving :
  console_accepts w ->
  OS.path_exists w (DIRECTORY s) = true ->
  OS.bind_error w (PORT s) = None ->
  main s pf w events
  = conclude (startup s w ++ browser_launch s w)
      (serve_forever pf w (httpd s) events).
Proof.
  intros C E B.
  unfold browser_launch, startup, banner, httpd, success_message,
    fallback_message, url.
  destruct s; cbn [main DIRECTORY PORT Handler] in *;
    [unfold PreviewServer.main | unfold PreviewAws.main];
    rewrite E; cbn [negb];
    rewrite TCPServer_init_ok by exact B;
    rewrite with_server_close; cbv beta zeta;
    rewrite !bind_print by apply C;
    rewrite try_launch by exact C;
    rewrite bind_done, try_serve by exact C; cbn [fst snd];
    destruct (serve_forever _ _ _ _) as [t [u | e |]];
    try destruct e;
    unfold conclude, farewell_message;
    cbn [fst snd app map];
    rewrite <- ?app_assoc; cbn [app]; rewrite ?app_nil_r;
    try destruct u; reflexivity.
Qed.

End Main.

(** ** What a run can contain *)

Lemma conclude_effects before served e :
  In e (fst (conclude before served)) ->
  In e before \/ In e (fst served)
  \/ e = Print farewell_message \/ e = SocketClose.
Proof.
  destruct served as [t [u | [] |]]; cbn [conclude fst];
    rewrite ?in_app_iff; cbn [In]; intuition.
Qed.

Lemma conclude_before before served e :
  In e before -> In e (fst (conclude before served)).
Proof.
  intros H. destruct served as [t [u | [] |]]; cbn [conclude fst];
    rewrite ?in_app_iff; auto.
Qed.

Lemma replies_effects s pf w cs e :
  In e (replies s pf w cs) ->
  (exists bytes, e = Response bytes) \/ (exists x, e = HandlerError x).
Proof.
  unfold replies. rewrite in_flat_map. intros (c & _ & H).
  unfold connection_effects in H.
  destruct (serve_connection pf w c) as [bytes|x];
    [destruct (String.eqb bytes "")|]; cbn [In] in H;
    [contradiction | |]; destruct H as [<- | []]; eauto.
Qed.

Lemma socket_closes_app t1 t2 :
  socket_closes (t1 ++ t2)%list = socket_closes t1 + socket_closes t2.
Proof. unfold socket_closes. now rewrite filter_app, length_app. Qed.

Lemma socket_closes_prints lines : socket_closes (map Print lines) = 0.
Proof. induction lines; [reflexivity | exact IHlines]. Qed.

Lemma socket_closes_replies s pf w cs : socket_closes (replies s pf w cs) = 0.
Proof.
  apply (count_plain is_SocketClose s); [| apply plain_replies].
  intros [] H; try reflexivity; contradiction.
Qed.

Lemma socket_closes_startup s w : socket_closes (startup s w) = 0.
Proof.
  unfold startup. rewrite socket_closes_app, socket_closes_prints. reflexivity.
Qed.

Lemma socket_closes_browser_launch s w : socket_closes (browser_launch s w) = 0.
Proof. unfold browser_launch. destruct (OS.browser w (url s)); reflexivity. Qed.

(** The fallback line is none of the other lines a script prints. *)
Lemma fallback_not_elsewhere s w :
  ~ In (Print (fallback_message s)) (startup s w)
  /\ fallback_message s <> success_message s
  /\ Print (fallback_message s) <> Print farewell_message.
Proof.
  destruct s; repeat split.
  - cbn. intros H. repeat destruct H as [H | H]; try discriminate H. exact H.
  - discriminate.
  - discriminate.
  - cbn. intros H. repeat destruct H as [H | H]; try discriminate H. exact H.
  - discriminate.
  - discriminate.
Qed.

End ProcessFacts.

(* ===================================================================== *)
(** * Reasoning about paths and header lists *)
(* ===================================================================== *)

Module PathFacts.

Import HttpServer Scripts StringFacts HandlerFacts.

Lemma startswith_slash_has_slash word :
  startswith word "/" = true -> has_slash word = true.
Proof.
  destruct word as [|c word]; [discriminate|].
  unfold startswith. cbn [String.prefix has_slash].
  destruct (ascii_dec "/" c) as [<- | N]; [reflexivity|].
  discriminate.
Qed.

Lemma join_extends a b :
  has_slash b = false -> exists rest, OS.join a b = a ++ rest.
Proof.
  intros H. unfold OS.join.
  destruct (startswith b "/") eqn:S.
  - apply startswith_slash_has_slash in S. congruence.
  - destruct (_ || _)%bool; eexists; reflexivity.
Qed.

(** [translate_path] only appends to [self.directory], and assigns
    nothing. *)
Lemma translate_path_extends pf p h :
  exists rest, translate_path pf p h = Ok (directory h ++ rest, h).
Proof.
  unfold translate_path, bind, self, ret. cbv zeta.
  assert (F : forall words start,
             exists rest,
               fold_left
                 (fun path word =>
                    if (has_slash word || String.eqb word "."
                        || String.eqb word "..")%bool
                    then path else OS.join path word)
                 words start = start ++ rest).
  { induction words as [|word words IH]; intros start; cbn [fold_left].
    - exists "". now rewrite append_empty_r.
    - destruct (has_slash word) eqn:Hs; cbn [orb].
      + apply IH.
      + destruct (_ || _)%bool; [apply IH|].
        destruct (join_extends start word Hs) as (r1 & ->).
        destruct (IH (start ++ r1)) as (r2 & ->).
        exists (r1 ++ r2). now rewrite append_assoc. }
  destruct (F (url_words pf p) (directory h)) as (rest & ->).
  destruct (url_trailing_slash pf p).
  - exists (rest ++ "/"). now rewrite append_assoc.
  - exists rest. reflexivity.
Qed.

Lemma injected_allow_origin (s : script) :
  exists more, join (injected s) = allow_origin ++ more.
Proof.
  destruct s.
  - exists (allow_methods ++ allow_headers). reflexivity.
  - exists "". reflexivity.
Qed.

(** The [send_header] calls of a hook leave the lines of the script at
    the end of the buffer, or do nothing for an HTTP/0.9 request. *)
Lemma send_headers_cors (s : script) (h : handler) :
  send_headers (cors s) h
  = Ok (tt, if String.eqb (request_version h) "HTTP/0.9" then h
            else set_headers_buffer
                   (Some (buffered h ++ injected s)%list) h).
Proof.
  unfold send_headers.
  destruct (String.eqb (request_version h) "HTTP/0.9") eqn:E.
  - destruct s; cbn [cors fold_right fst snd]; unfold bind;
      rewrite !send_header_off by (exact E || reflexivity); reflexivity.
  - destruct s; cbn [cors fold_right fst snd]; unfold bind;
      rewrite (send_header_on _ _ h E) by reflexivity;
      rewrite ?send_header_on by (exact E || reflexivity);
      cbv beta iota; unfold ret, injected;
      cbn [cors map fst snd buffered _headers_buffer set_headers_buffer];
      rewrite <- ?app_assoc; reflexivity.
Qed.

End PathFacts.

(* ===================================================================== *)
(** * Properties of the scripts *)
(* ===================================================================== *)

Import HttpServer Process SocketServer Scripts Examples.
Import StringFacts HandlerFacts ProcessFacts PathFacts.

(** ** Response headers *)







(** C7, as stated, does not hold on every response. The request line
    [GET /index.html] is an HTTP/0.9 request: [parse_request] records
    that version, and in the state it leaves the hook of [preview-aws.py]
    adds no header and writes no blank line, it returns the handler as it
    is. The response to that request is the file alone, without any line
    end in it. *)
Lemma http09_hook_adds_nothing :
  parse_request (cls := Handler preview_aws) pf_demo get_index_http09
    (new_handler (cls := Handler preview_aws))
  = Ok (true, parsed_get_index_http09)
  /\ request_version parsed_get_index_http09 = "HTTP/0.9"
  /\ end_headers preview_aws parsed_get_index_http09
     = Ok (tt, parsed_get_index_http09)
  /\ reply preview_aws pf_demo site [get_index_http09]
     = "<h1>Resume on AWS</h1>"
  /\ contains CRLF (reply preview_aws pf_demo site [get_index_http09])
     = false.
Proof. repeat split; vm_compute; reflexivity. Qed.

(** C7, amended. In the hook of either script, from any handler state,
    the [send_header] calls for the injected headers return normally and
    leave a state [h1]; the result of the hook is the base class
    [end_headers] run on [h1]. Unless the request is an HTTP/0.9 one, [h1]
    holds the injected lines at the end of the header buffer, and the
    hook writes the lines buffered before it, then the injected lines,
    then the blank line that ends the header section. For an HTTP/0.9
    request the hook adds and writes nothing. *)
Theorem injected_headers_precede_blank_line (s : script) (h : handler) :
  exists h1,
    send_headers (cors s) h = Ok (tt, h1)
    /\ h1 = (if String.eqb (request_version h) "HTTP/0.9" then h
             else set_headers_buffer
                    (Some (buffered h ++ injected s)%list) h)
    /\ end_headers s h = HttpServer.end_headers h1
    /\ end_headers s h
       = Ok (tt, if String.eqb (request_version h) "HTTP/0.9" then h
                 else flushed
                        (join (buffered h) ++ join (injected s) ++ CRLF) h).
Proof.
  eexists. split; [apply send_headers_cors|]. split; [reflexivity|]. split.
  - destruct (String.eqb (request_version h) "HTTP/0.9") eqn:E;
      destruct s; cbn [end_headers];
      [unfold PreviewServer.end_headers | unfold PreviewAws.end_headers
      |unfold PreviewServer.end_headers | unfold PreviewAws.end_headers];
      unfold HttpServer.bind.
    + now rewrite !send_header_off by (exact E || reflexivity).
    + now rewrite !send_header_off by (exact E || reflexivity).
    + rewrite (send_header_on _ _ h E) by reflexivity.
      rewrite !send_header_on by (exact E || reflexivity).
      cbv beta iota. unfold injected.
      cbn [cors map fst snd buffered _headers_buffer set_headers_buffer].
      rewrite <- !app_assoc. reflexivity.
    + rewrite (send_header_on _ _ h E) by reflexivity.
      reflexivity.
  - destruct s; cbn [end_headers];
      [rewrite hook_preview_server | rewrite hook_preview_aws]; reflexivity.
Qed.

(** ** Startup *)




(** C8. The startup check is [os.path.exists]: whatever [os.stat] finds
    for the root directory name, a regular file included, the run starts
    by creating the socket and binding it to the port of the script. *)
Theorem existence_check_accepts_any_node
  (s : script) (pf : platform) (w : OS.world) (events : list event)
  (n : OS.node) :
  OS.stat w (DIRECTORY s) = Some n ->
  exists rest,
    fst (main s pf w events)
    = SocketCreate :: SocketBind "" (PORT s) :: rest.
Proof.
  intros St.
  assert (E : OS.path_exists w (DIRECTORY s) = true)
    by (unfold OS.path_exists; now rewrite St).
  destruct (OS.bind_error w (PORT s)) as [what|] eqn:B.
  - rewrite (main_bind_failure s pf w events what) by assumption.
    eexists. reflexivity.
  - destruct (main_listening s pf w events E B) as (t & st & _ & ->).
    eexists. reflexivity.
Qed.

(** C8 where [public] is a regular file. *)
Lemma existence_check_accepts_any_node_witness :
  OS.stat site_root_is_file (DIRECTORY preview_server)
  = Some (OS.File (Some "not a directory") 1700000000%N)
  /\ exists rest,
       fst (main preview_server pf_demo site_root_is_file [Interrupt])
       = SocketCreate :: SocketBind "" (PORT preview_server) :: rest.
Proof.
  split; [reflexivity|].
  apply (existence_check_accepts_any_node preview_server pf_demo
           site_root_is_file [Interrupt]
           (OS.File (Some "not a directory") 1700000000%N)).
  reflexivity.
Defined.


(** C10. The startup check looks the root directory name up under the
    working directory of the process; a handler starts from that name,
    [translate_path] only appends to it, and every path that starts with
    it is looked up under the working directory too. Where the script file
    lies makes no difference to a run, while the directory the script is
    started from does: from the project root the server starts, from its
    parent directory the run ends with the error lines. *)
Theorem root_is_relative_to_working_directory :
  (forall s w,
     OS.path_exists w (DIRECTORY s)
     = match OS.fs w (OS.join (OS.cwd w) (DIRECTORY s)) with
       | Some _ => true
       | None => false
       end)
  /\ (forall s, directory (new_handler (cls := Handler s)) = DIRECTORY s)
  /\ (forall pf p h,
        exists rest, translate_path pf p h = Ok (directory h ++ rest, h))
  /\ (forall s w rest,
        OS.stat w (DIRECTORY s ++ rest)
        = OS.fs w (OS.join (OS.cwd w) (DIRECTORY s ++ rest)))
  /\ (forall s pf w f events,
        main s pf (with_script_file f w) events = main s pf w events)
  /\ (forall s,
        run (main s pf_demo (with_cwd "/home/dev/site" site) [])
        <> run (main s pf_demo (with_cwd "/home/dev" site) [])).
Proof.
  split; [| split; [| split; [| split; [| split]]]].
  - intros s w. destruct s; reflexivity.
  - intros s. destruct s; reflexivity.
  - apply translate_path_extends.
  - intros s w rest. destruct s; reflexivity.
  - intros s pf w f events. destruct s; reflexivity.
  - intros s H. destruct s; vm_compute in H; discriminate H.
Qed.

(** ** Browser launch *)

(** C4 on a machine where [webbrowser.open] finds no browser and returns
    [False]: both scripts print the success line, not the fallback line,
    then serve the request and stop on the interrupt. *)
Lemma no_browser_yet_success_message :
  OS.browser site_without_browser (url preview_server) = Ok false
  /\ run (main preview_server pf_demo site_without_browser
            [Connection [get_index_http11]; Interrupt])
     = ((startup preview_server site_without_browser
         ++ [OpenBrowser (url preview_server);
             Print (success_message preview_server)]
         ++ replies preview_server pf_demo site_without_browser
              [[get_index_http11]]
         ++ [Print farewell_message; SocketClose])%list,
        Exited 0)
  /\ OS.browser site_without_browser (url preview_aws) = Ok false
  /\ run (main preview_aws pf_demo site_without_browser
            [Connection [get_index_http11]; Interrupt])
     = ((startup preview_aws site_without_browser
         ++ [OpenBrowser (url preview_aws); Print (success_message preview_aws)]
         ++ replies preview_aws pf_demo site_without_browser
              [[get_index_http11]]
         ++ [Print farewell_message; SocketClose])%list,
        Exited 0).
Proof. repeat split; vm_compute; reflexivity. Qed.



(** ** Shutdown *)



(* ===================================================================== *)
(** * Further properties of the scripts *)
(* ===================================================================== *)

(** ** Runs in closed form *)

(** Every run on a console that takes the lines of the script, in closed
    form. *)
Lemma run_main s pf w events :
  console_accepts w ->
  run (main s pf w events)
  = if negb (OS.path_exists w (DIRECTORY s))
    then (map Print (not_found_lines s), Exited 0)
    else match OS.bind_error w (PORT s) with
         | Some what =>
             ([SocketCreate; SocketBind "" (PORT s); SocketClose;
               Traceback (OSError what)], Exited 1)
         | None =>
             if interrupted events
             then ((startup s w ++ browser_launch s w
                    ++ replies s pf w (before_interrupt events)
                    ++ [Print farewell_message; SocketClose])%list, Exited 0)
             else ((startup s w ++ browser_launch s w
                    ++ replies s pf w (before_interrupt events))%list,
                   Running)
         end.
Proof.
  intros C.
  destruct (OS.path_exists w (DIRECTORY s)) eqn:E; cbn [negb].
  2: { rewrite main_root_missing by (exact E || (intros line _; apply C)).
       reflexivity. }
  destruct (OS.bind_error w (PORT s)) as [what|] eqn:B.
  { rewrite (main_bind_failure s pf w events what) by assumption.
    reflexivity. }
  rewrite main_serving, serve_forever_events by assumption.
  destruct (interrupted events); unfold conclude, run;
    now rewrite <- !app_assoc.
Qed.

(** The effects of a run are those of [main] and, at most, the report of
    the exception that ends it. *)
Lemma run_effects (m : proc unit) x :
  In x (fst (run m)) -> In x (fst m) \/ exists e, x = Traceback e.
Proof.
  destruct m as [t [u | e |]]; cbn [run fst]; auto.
  destruct e; cbn [fst]; rewrite in_app_iff; cbn [In];
    intros [H | [<- | []]]; eauto.
Qed.

(** Every effect of a run, on any console: a printed line, the report of
    an uncaught exception, an operation on the socket of the script, or,
    once the server is listening, an effect of the body of the [with]
    statement. *)
Lemma run_effects_cases s pf w events x :
  In x (fst (run (main s pf w events))) ->
  (exists line, x = Print line)
  \/ (exists e, x = Traceback e)
  \/ In x [SocketCreate; SocketBind "" (PORT s); SocketListen; SocketClose]
  \/ (listening s w = true /\ plain s x).
Proof.
  intros H. apply run_effects in H.
  destruct H as [H | H]; [| right; left; exact H].
  destruct (OS.path_exists w (DIRECTORY s)) eqn:E.
  2: { destruct (main_root_missing_plain s pf w events E) as (F & _).
       left. rewrite Forall_forall in F. apply F, H. }
  destruct (OS.bind_error w (PORT s)) as [what|] eqn:B.
  { rewrite (main_bind_failure s pf w events what) in H by assumption.
    cbn [fst In] in H. right; right; left. cbn [In]. tauto. }
  destruct (main_listening s pf w events E B) as (t & st & F & M).
  rewrite M in H. cbn [fst] in H. rewrite !in_app_iff in H.
  destruct H as [H | [H | H]].
  - right; right; left. cbn [In] in *. tauto.
  - right; right; right. split.
    + unfold listening. now rewrite E, B.
    + rewrite Forall_forall in F. apply F, H.
  - right; right; left. destruct st; cbn [In] in *; tauto.
Qed.

(** X1. When the root directory is there but the port cannot be bound,
    the run is: create the socket, try to bind it, close it, and end on
    the uncaught [OSError] with exit status 1. Nothing is printed and the
    browser is not opened. *)
Theorem port_in_use_ends_the_run
  (s : script) (pf : platform) (w : OS.world) (events : list event)
  (what : string) :
  OS.path_exists w (DIRECTORY s) = true ->
  OS.bind_error w (PORT s) = Some what ->
  run (main s pf w events)
  = ([SocketCreate; SocketBind "" (PORT s); SocketClose;
      Traceback (OSError what)], Exited 1).
Proof.
  intros E B. rewrite (main_bind_failure s pf w events what) by assumption.
  reflexivity.
Qed.

(** X1 on [preview-server.py] with port 8080 taken. *)
Lemma port_in_use_ends_the_run_witness :
  run (main preview_server pf_demo site_port_in_use [Interrupt])
  = ([SocketCreate; SocketBind "" 8080; SocketClose;
      Traceback (OSError "[Errno 98] Address already in use")], Exited 1).
Proof.
  apply (port_in_use_ends_the_run preview_server pf_demo site_port_in_use
           [Interrupt] "[Errno 98] Address already in use");
    reflexivity.
Defined.

Lemma count_app p t1 t2 : count p (t1 ++ t2)%list = count p t1 + count p t2.
Proof. unfold count. now rewrite filter_app, length_app. Qed.

Lemma count_prints p lines :
  (forall l, p (Print l) = false) -> count p (map Print lines) = 0.
Proof.
  intros H. induction lines as [|l lines IH]; [reflexivity|].
  unfold count in *. cbn [map filter]. now rewrite H.
Qed.

Lemma count_printed p t :
  (forall l, p (Print l) = false) ->
  Forall (fun e => exists line, e = Print line) t -> count p t = 0.
Proof.
  intros H F. unfold count.
  induction F as [|e t (line & ->) F IH]; [reflexivity|].
  cbn [filter]. now rewrite H.
Qed.

Lemma count_none p t :
  (forall e, In e t -> p e = false) -> count p t = 0.
Proof.
  intros H. unfold count. induction t as [|e t IH]; [reflexivity|].
  cbn [filter]. rewrite (H e) by (left; reflexivity).
  apply IH. intros x Hx. apply H. right. exact Hx.
Qed.

Lemma count_replies p s pf w cs :
  (forall bytes, p (Response bytes) = false) ->
  (forall x, p (HandlerError x) = false) ->
  count p (replies s pf w cs) = 0.
Proof.
  intros Hr Hx. apply count_none. intros e H.
  apply replies_effects in H. destruct H as [(bytes & ->) | (x & ->)]; auto.
Qed.

Lemma count_startup p s w :
  (forall l, p (Print l) = false) ->
  count p (startup s w)
  = count p [SocketCreate; SocketBind "" (PORT s); SocketListen].
Proof.
  intros H. unfold startup. rewrite count_app, count_prints by exact H.
  apply Nat.add_0_r.
Qed.

Lemma count_browser_launch p s w :
  (forall l, p (Print l) = false) ->
  count p (browser_launch s w) = count p [OpenBrowser (url s)].
Proof.
  intros H. unfold browser_launch, count.
  destruct (OS.browser w (url s)); cbn [filter]; rewrite H; reflexivity.
Qed.

(** X3. A run creates one socket when the root directory is there and
    none otherwise; while the process is running the socket is open, and
    once the process has ended, by an interrupt, a failed bind or any
    other exception, every socket it created has been closed exactly
    once. *)
Theorem socket_is_released
  (s : script) (pf : platform) (w : OS.world) (events : list event) :
  let t := fst (run (main s pf w events)) in
  count is_SocketCreate t
  = (if OS.path_exists w (DIRECTORY s) then 1 else 0)
  /\ socket_closes t
     = match snd (run (main s pf w events)) with
       | Running => 0
       | _ => count is_SocketCreate t
       end.
Proof.
  cbv zeta. change socket_closes with (count is_SocketClose).
  destruct (OS.path_exists w (DIRECTORY s)) eqn:E.
  2: { destruct (main_root_missing_plain s pf w events E) as (F & N).
       destruct (main s pf w events) as [t [u | e |]];
         [| destruct e |]; cbn [run fst snd] in *;
         rewrite ?count_app, !(count_printed _ t) by (reflexivity || exact F);
         split; reflexivity. }
  destruct (OS.bind_error w (PORT s)) as [what|] eqn:B.
  { rewrite (main_bind_failure s pf w events what) by assumption.
    split; reflexivity. }
  destruct (main_listening s pf w events E B) as (t & st & F & ->).
  assert (C1 : count is_SocketCreate t = 0).
  { apply (count_plain _ s); [| exact F].
    intros [] H; try reflexivity; contradiction. }
  assert (C2 : count is_SocketClose t = 0).
  { apply (count_plain _ s); [| exact F].
    intros [] H; try reflexivity; contradiction. }
  destruct st as [u | e |]; [| destruct e |]; cbn [run fst snd];
    rewrite !count_app, C1, C2; split; reflexivity.
Qed.



Lemma filter_prints p lines :
  (forall l, p (Print l) = false) -> filter p (map Print lines) = [].
Proof.
  intros H. induction lines as [|l lines IH]; [reflexivity|].
  cbn [map filter]. now rewrite H.
Qed.

(** X5. On a console that takes the lines of the script, what
    [webbrowser.open] does (open, fail, raise, even raise
    [KeyboardInterrupt]) changes nothing but printed lines: with any other
    browser launcher the run has the same final state and, printed lines
    apart, the same effects in the same order. *)
Theorem browser_outcome_only_changes_a_line
  (s : script) (pf : platform) (w : OS.world)
  (b : string -> result bool) (events : list event) :
  console_accepts w ->
  snd (run (main s pf (with_browser b w) events))
  = snd (run (main s pf w events))
  /\ filter (fun e => negb (is_Print e))
       (fst (run (main s pf (with_browser b w) events)))
     = filter (fun e => negb (is_Print e)) (fst (run (main s pf w events))).
Proof.
  intros C.
  rewrite (run_main s pf (with_browser b w) events C).
  rewrite (run_main s pf w events C).
  change (OS.path_exists (with_browser b w) (DIRECTORY s))
    with (OS.path_exists w (DIRECTORY s)).
  change (OS.bind_error (with_browser b w) (PORT s))
    with (OS.bind_error w (PORT s)).
  destruct (OS.path_exists w (DIRECTORY s)); cbn [negb];
    [| split; reflexivity].
  destruct (OS.bind_error w (PORT s)); [split; reflexivity|].
  assert (L : filter (fun e => negb (is_Print e))
                (browser_launch s (with_browser b w))
              = filter (fun e => negb (is_Print e)) (browser_launch s w)).
  { unfold browser_launch. cbn [OS.browser with_browser].
    destruct (b (url s)), (OS.browser w (url s)); reflexivity. }
  assert (R : replies s pf (with_browser b w) (before_interrupt events)
              = replies s pf w (before_interrupt events)) by reflexivity.
  assert (S : startup s (with_browser b w) = startup s w) by reflexivity.
  destruct (interrupted events); cbn [fst snd]; (split; [reflexivity|]);
    rewrite !filter_app, L, R, S; reflexivity.
Qed.

(** X5 on [preview-server.py] in the sample checkout, with a launcher
    that raises in place of the one that opens the browser. *)
Lemma browser_outcome_only_changes_a_line_witness :
  snd (run (main preview_server pf_demo site_browser_raises [Interrupt]))
  = snd (run (main preview_server pf_demo site [Interrupt]))
  /\ filter (fun e => negb (is_Print e))
       (fst (run (main preview_server pf_demo site_browser_raises
                   [Interrupt])))
     = filter (fun e => negb (is_Print e))
         (fst (run (main preview_server pf_demo site [Interrupt]))).
Proof.
  apply (browser_outcome_only_changes_a_line preview_server pf_demo site
           (fun _ => Raise (OtherError "webbrowser.Error")) [Interrupt]
           (fun _ => eq_refl)).
Defined.

Lemma farewell_not_elsewhere s w :
  ~ In (Print farewell_message) (map Print (not_found_lines s))
  /\ ~ In (Print farewell_message) (startup s w)
  /\ ~ In (Print farewell_message) (browser_launch s w).
Proof.
  split; [| split].
  - destruct s; cbn; intros H;
      repeat destruct H as [H | H]; try discriminate H; exact H.
  - destruct s; cbn; intros H;
      repeat destruct H as [H | H]; try discriminate H; exact H.
  - unfold browser_launch.
    destruct (OS.browser w (url s)); destruct s; cbn; intros H;
      repeat destruct H as [H | H]; try discriminate H; exact H.
Qed.

(** X6. On a console that takes the lines of the script, the farewell
    line is printed exactly in the runs where the server was listening
    and Ctrl+C was pressed. *)
Theorem farewell_exactly_when_interrupted
  (s : script) (pf : platform) (w : OS.world) (events : list event) :
  console_accepts w ->
  In (Print farewell_message) (fst (run (main s pf w events)))
  <-> listening s w = true /\ interrupted events = true.
Proof.
  intros C.
  destruct (farewell_not_elsewhere s w) as (N1 & N2 & N3).
  rewrite run_main by exact C. unfold listening.
  destruct (OS.path_exists w (DIRECTORY s)); cbn [negb fst andb].
  2: { split; [intros H; contradiction | intros [H _]; discriminate H]. }
  destruct (OS.bind_error w (PORT s)).
  { split; [| intros [H _]; discriminate H].
    intros [H | [H | [H | [H | []]]]]; discriminate H. }
  destruct (interrupted events); cbn [fst].
  - split; [auto|]. intros _. rewrite !in_app_iff. cbn [In]. auto.
  - split; [| intros [_ H]; discriminate H].
    rewrite !in_app_iff. intros [H | [H | H]]; try contradiction.
    apply replies_effects in H.
    destruct H as [(bytes & H) | (x & H)]; discriminate H.
Qed.

(** X6 on [preview-aws.py] in the sample checkout, interrupted after one
    connection. *)
Lemma farewell_exactly_when_interrupted_witness :
  In (Print farewell_message)
     (fst (run (main preview_aws pf_demo site
                  [Connection [get_index_http11]; Interrupt]))).
Proof.
  apply (farewell_exactly_when_interrupted preview_aws pf_demo site
           [Connection [get_index_http11]; Interrupt] (fun _ => eq_refl)).
  split; reflexivity.
Defined.

(** X8. On a handler that has buffered no header line yet, the base
    class [end_headers] raises [AttributeError], while the hook of either
    script returns normally: its first [send_header] creates the buffer,
    and the hook writes its own lines and the blank line. *)
Theorem hook_creates_the_header_buffer (s : script) (h : handler) :
  String.eqb (request_version h) "HTTP/0.9" = false ->
  _headers_buffer h = None ->
  HttpServer.end_headers h = Raise (AttributeError "_headers_buffer")
  /\ end_headers s h = Ok (tt, flushed (join (injected s) ++ CRLF) h).
Proof.
  intros E B. split.
  - unfold HttpServer.end_headers, HttpServer.bind, self. rewrite E, B.
    reflexivity.
  - destruct s; cbn [end_headers];
      [rewrite hook_preview_server | rewrite hook_preview_aws];
      unfold hook_result, buffered; rewrite E, B; reflexivity.
Qed.

(** X8 on a new handler of [preview-aws.py] for an HTTP/1.1 request. *)
Lemma hook_creates_the_header_buffer_witness :
  HttpServer.end_headers
    (set_request_version "HTTP/1.1"
       (new_handler (cls := Handler preview_aws)))
  = Raise (AttributeError "_headers_buffer")
  /\ end_headers preview_aws
       (set_request_version "HTTP/1.1"
          (new_handler (cls := Handler preview_aws)))
     = Ok (tt, flushed (join (injected preview_aws) ++ CRLF)
                 (set_request_version "HTTP/1.1"
                    (new_handler (cls := Handler preview_aws)))).
Proof.
  apply (hook_creates_the_header_buffer preview_aws
           (set_request_version "HTTP/1.1"
              (new_handler (cls := Handler preview_aws))));
    reflexivity.
Defined.

Lemma stays_closed_ret {A : Type} (a : A) : stays_closed (HttpServer.ret a).
Proof. intros h C. apply wp_wpe, wp_ret. exact C. Qed.

Lemma stays_closed_raise {A : Type} (e : exn) :
  stays_closed (HttpServer.raise (A := A) e).
Proof. intros h C. exact I. Qed.

Lemma stays_closed_bind {A B : Type} (m : method A) (k : A -> method B) :
  stays_closed m -> (forall a, stays_closed (k a)) ->
  stays_closed (HttpServer.bind m k).
Proof.
  intros Hm Hk h C. apply wpe_bind.
  eapply wpe_weaken; [apply Hm; exact C | | auto].
  intros a h1 C1. apply Hk. exact C1.
Qed.

Lemma stays_closed_self : stays_closed self.
Proof. intros h C. apply wp_wpe, wp_self. exact C. Qed.

(** An assignment to any attribute but [close_connection]. *)
Lemma stays_closed_assign (f : handler -> handler) :
  (forall h, close_connection (f h) = close_connection h) ->
  stays_closed (assign f).
Proof. intros Hf h C. apply wp_wpe, wp_assign. now rewrite Hf. Qed.

Lemma stays_closed_close : stays_closed (assign (set_close_connection true)).
Proof. intros h C. apply wp_wpe, wp_assign. reflexivity. Qed.

Lemma stays_closed_buffer_append line : stays_closed (buffer_append line).
Proof.
  apply stays_closed_assign. intros h. destruct (_headers_buffer h); reflexivity.
Qed.

Create HintDb closed.

#[local] Hint Resolve stays_closed_ret stays_closed_raise stays_closed_self
  stays_closed_close stays_closed_buffer_append : closed.
#[local] Hint Extern 1 (stays_closed (assign _)) =>
  (apply stays_closed_assign; intros ?; reflexivity) : closed.

(** Closes [stays_closed m] for a method built from known pieces. *)
Ltac closed_tac :=
  repeat first
    [ solve [auto with closed]
    | apply stays_closed_bind; [| intros ?]
    | match goal with
      | |- stays_closed (if ?b then _ else _) => destruct b
      | |- stays_closed (match ?x with _ => _ end) => destruct x
      end ].

Lemma stays_closed_send_response_only pf code message :
  stays_closed (send_response_only pf code message).
Proof. unfold send_response_only. closed_tac. Qed.

(** A header keeps the connection closed unless it is a [Connection]
    header with another value than [close]. *)
Lemma stays_closed_send_header keyword value :
  (String.eqb (lower keyword) "connection"
   && negb (String.eqb (lower value) "close"))%bool = false ->
  stays_closed (send_header keyword value).
Proof.
  intros K. unfold send_header.
  apply stays_closed_bind; [apply stays_closed_self | intros h0].
  apply stays_closed_bind; [closed_tac | intros u].
  destruct (String.eqb (lower keyword) "connection"); [| closed_tac].
  cbn [andb] in K. apply negb_false_iff in K. rewrite K. closed_tac.
Qed.

#[local] Hint Resolve stays_closed_send_response_only : closed.
#[local] Hint Extern 1 (stays_closed (send_header _ _)) =>
  (apply stays_closed_send_header; reflexivity) : closed.

Lemma stays_closed_send_response pf code message :
  stays_closed (send_response pf code message).
Proof. unfold send_response. closed_tac. Qed.

Lemma stays_closed_hook s :
  stays_closed (self_end_headers (HandlerClass := Handler s)).
Proof.
  intros h C. unfold wpe. rewrite hook_script. unfold hook_result.
  destruct (String.eqb (request_version h) "HTTP/0.9"); exact C.
Qed.

#[local] Hint Resolve stays_closed_send_response stays_closed_hook : closed.

Lemma stays_closed_send_error s pf code message explain :
  stays_closed (send_error (cls := Handler s) pf code message explain).
Proof.
  unfold send_error.
  destruct (match responses pf code with
            | Some sl => sl
            | None => ("???", "???")
            end) as [shortmsg longmsg].
  closed_tac.
Qed.

#[local] Hint Resolve stays_closed_send_error : closed.

Lemma stays_closed_translate_path pf p : stays_closed (translate_path pf p).
Proof. unfold translate_path. closed_tac. Qed.

#[local] Hint Resolve stays_closed_translate_path : closed.

Lemma stays_closed_list_directory s pf w p :
  stays_closed (list_directory (cls := Handler s) pf w p).
Proof. unfold list_directory. closed_tac. Qed.

#[local] Hint Resolve stays_closed_list_directory : closed.

Lemma stays_closed_send_head s pf w :
  stays_closed (send_head (cls := Handler s) pf w).
Proof. unfold send_head. closed_tac. Qed.

#[local] Hint Resolve stays_closed_send_head : closed.

Lemma stays_closed_parse_request s pf r :
  stays_closed (parse_request (cls := Handler s) pf r).
Proof. unfold parse_request. cbv zeta. closed_tac. Qed.

#[local] Hint Resolve stays_closed_parse_request : closed.

Lemma stays_closed_handle_one_request s pf w r :
  stays_closed (handle_one_request (cls := Handler s) pf w r).
Proof. unfold handle_one_request, do_GET, do_HEAD. cbv zeta. closed_tac. Qed.

(** Once the first request is handled the connection is to be closed, so
    [handle] reads no further request. *)
Lemma handle_first_request s pf w r rest h :
  handle (cls := Handler s) pf w (r :: rest) h
  = handle (cls := Handler s) pf w [r] h.
Proof.
  pose proof (stays_closed_handle_one_request s pf w r
                (set_close_connection true h) eq_refl) as C.
  unfold wpe in C.
  unfold handle, HttpServer.bind, assign. cbn [hd tl].
  destruct (handle_one_request pf w r (set_close_connection true h))
    as [[u h1]|e]; [| reflexivity].
  destruct rest; cbn [handle_more]; unfold HttpServer.bind, self;
    rewrite C; reflexivity.
Qed.

(** X7. A connection is answered once: the handlers keep the protocol
    version of the library and their hooks send no [Connection] header, so
    after the first request the connection is to be closed and whatever
    else the client sends on it is not read. *)
Theorem one_request_per_connection
  (s : script) (pf : platform) (w : OS.world)
  (r : request) (rest : list request) :
  reply s pf w (r :: rest) = reply s pf w [r].
Proof.
  unfold reply, serve_connection. now rewrite handle_first_request.
Qed.

Lemma send_response_only_on pf code h :
  String.eqb (request_version h) "HTTP/0.9" = false ->
  send_response_only pf code None h
  = Ok (tt, set_headers_buffer
              (Some (buffered h ++ [status_line pf code])%list) h).
Proof.
  intros E. unfold send_response_only, HttpServer.bind, self, buffer_append,
    assign, buffered, status_line.
  rewrite E. cbn [negb].
  destruct (_headers_buffer h); reflexivity.
Qed.

Lemma bind_self {B : Type} (k : handler -> method B) h :
  HttpServer.bind self k h = k h h.
Proof. reflexivity. Qed.

Lemma bind_ok {A B : Type} (m : method A) (k : A -> method B) h a h1 :
  m h = Ok (a, h1) -> HttpServer.bind m k h = k a h1.
Proof. intros E. unfold HttpServer.bind. now rewrite E. Qed.

Lemma send_header_next keyword value buf h :
  String.eqb (request_version h) "HTTP/0.9" = false ->
  String.eqb (lower keyword) "connection" = false ->
  send_header keyword value (set_headers_buffer (Some buf) h)
  = Ok (tt, set_headers_buffer
              (Some (buf ++ [header_line keyword value])%list) h).
Proof.
  intros E K. rewrite send_header_on by (exact E || exact K). reflexivity.
Qed.

Lemma send_response_on pf code h :
  String.eqb (request_version h) "HTTP/0.9" = false ->
  send_response pf code None h
  = Ok (tt, set_headers_buffer
              (Some (buffered h
                     ++ [status_line pf code;
                         header_line "Server" (version_string pf);
                         header_line "Date" (date_time_string pf None)])%list)
              h).
Proof.
  intros E. unfold send_response.
  rewrite (bind_ok _ _ _ _ _ (send_response_only_on pf code h E)).
  erewrite bind_ok by (apply send_header_next; [exact E | reflexivity]).
  rewrite send_header_next by (exact E || reflexivity).
  rewrite <- !app_assoc. reflexivity.
Qed.

Lemma hook_next s buf h :
  String.eqb (request_version h) "HTTP/0.9" = false ->
  self_end_headers (HandlerClass := Handler s)
    (set_headers_buffer (Some buf) h)
  = Ok (tt, flushed (join buf ++ join (injected s) ++ CRLF) h).
Proof.
  intros E. rewrite hook_script. unfold hook_result.
  change (request_version (set_headers_buffer (Some buf) h))
    with (request_version h).
  rewrite E. reflexivity.
Qed.

(** X9. A [GET] for a directory of the served tree that holds an
    [index.html] which [open] accepts, asked for with a trailing slash by
    a request that is not an HTTP/0.9 one and has no [If-Modified-Since]
    header: the response is the 200 status line, the [Server], [Date],
    [Content-type], [Content-Length] and [Last-Modified] headers, the
    lines of the script, the blank line, and the content of
    [DIRECTORY/index.html]. *)
Theorem get_serves_the_index_page
  (s : script) (pf : platform) (w : OS.world) (h : handler)
  (listing : option (list string)) (content : string) (mtime : N) :
  String.eqb (request_version h) "HTTP/0.9" = false ->
  directory h = DIRECTORY s ->
  if_modified_since h = None ->
  url_words pf (path h) = [] ->
  url_trailing_slash pf (path h) = true ->
  url_path_endswith_slash pf (path h) = true ->
  OS.stat w (DIRECTORY s ++ "/") = Some (OS.Dir listing) ->
  OS.stat w (DIRECTORY s ++ "/index.html")
  = Some (OS.File (Some content) mtime) ->
  OS.open_error w (DIRECTORY s ++ "/index.html") = None ->
  exists h',
    do_GET (cls := Handler s) pf w h = Ok (tt, h')
    /\ wfile h'
       = wfile h ++ join (buffered h)
         ++ status_line pf 200
         ++ header_line "Server" (version_string pf)
         ++ header_line "Date" (date_time_string pf None)
         ++ header_line "Content-type"
              (guess_type pf (DIRECTORY s ++ "/index.html"))
         ++ header_line "Content-Length" (str (String.length content))
         ++ header_line "Last-Modified" (date_time_string pf (Some mtime))
         ++ join (injected s) ++ CRLF ++ content.
Proof.
  intros E D I W T P Sd Sf Oe.
  assert (Tp : translate_path pf (path h) h = Ok (DIRECTORY s ++ "/", h)).
  { unfold translate_path, HttpServer.bind, self, HttpServer.ret. cbv zeta.
    rewrite W, T, D. reflexivity. }
  assert (J : OS.join (DIRECTORY s ++ "/") "index.html"
              = DIRECTORY s ++ "/index.html") by (destruct s; reflexivity).
  assert (Sl : endswith_slash (DIRECTORY s ++ "/index.html") = false)
    by (destruct s; reflexivity).
  assert (Sh : send_head (cls := Handler s) pf w h
               = Ok (Some content,
                     flushed
                       (join (buffered h
                              ++ [status_line pf 200;
                                  header_line "Server" (version_string pf);
                                  header_line "Date"
                                    (date_time_string pf None);
                                  header_line "Content-type"
                                    (guess_type pf
                                       (DIRECTORY s ++ "/index.html"));
                                  header_line "Content-Length"
                                    (str (String.length content));
                                  header_line "Last-Modified"
                                    (date_time_string pf (Some mtime))])%list
                        ++ join (injected s) ++ CRLF) h)).
  { unfold send_head. rewrite bind_self.
    rewrite (bind_ok _ _ _ _ _ Tp). cbv beta zeta.
    unfold OS.isdir, OS.isfile. rewrite Sd, P, J, Sf, Sl. cbn [negb].
    unfold OS.open_rb. rewrite Oe, Sf. rewrite bind_self, I.
    rewrite (bind_ok _ _ _ tt _ (send_response_on pf 200 h E)).
    do 3 (erewrite bind_ok
            by (apply send_header_next; [exact E | reflexivity])).
    rewrite (bind_ok _ _ _ tt _ (hook_next s _ h E)).
    unfold HttpServer.ret. rewrite <- !app_assoc. reflexivity. }
  eexists. split.
  - unfold do_GET. rewrite (bind_ok _ _ _ _ _ Sh). reflexivity.
  - cbn [wfile wfile_write flushed set_headers_buffer].
    rewrite join_app. cbn [join fold_right].
    rewrite append_empty_r, !append_assoc. reflexivity.
Qed.

(** [parsed_get_root] is the state [parse_request] leaves. *)
Lemma parse_request_get_root (s : script) :
  parse_request (cls := Handler s) pf_demo (request_line "GET / HTTP/1.1")
    (new_handler (cls := Handler s))
  = Ok (true, parsed_get_root s).
Proof. destruct s; vm_compute; reflexivity. Qed.

(** X9 on [GET / HTTP/1.1] sent to [preview-server.py] in the sample
    checkout. *)
Lemma get_serves_the_index_page_witness :
  exists h',
    do_GET (cls := Handler preview_server) pf_demo site
      (parsed_get_root preview_server)
    = Ok (tt, h')
    /\ wfile h'
       = "HTTP/1.0 200 OK" ++ CRLF
         ++ header_line "Server" "SimpleHTTP/0.6 Python/3.11.2"
         ++ header_line "Date" "Thu, 01 Jan 1970 00:00:00 GMT"
         ++ header_line "Content-type" "text/html"
         ++ header_line "Content-Length" "15"
         ++ header_line "Last-Modified" "Thu, 01 Jan 1970 00:00:00 GMT"
         ++ allow_origin ++ allow_methods ++ allow_headers ++ CRLF
         ++ "<h1>Resume</h1>".
Proof.
  apply (get_serves_the_index_page preview_server pf_demo site
           (parsed_get_root preview_server) (Some ["index.html"])
           "<h1>Resume</h1>" 1700000000%N);
    reflexivity.
Defined.

(** X10. A request for a path that [open] rejects with its [ValueError]
    (a null byte in the path) is not answered: the path is not a
    directory, [send_head] catches [OSError] only, so the exception
    leaves [do_GET] and [do_HEAD], and neither a response nor a header of
    the script is sent. *)
Theorem unopenable_path_is_not_answered
  (s : script) (pf : platform) (w : OS.world) (h : handler)
  (p what : string) :
  translate_path pf (path h) h = Ok (p, h) ->
  OS.isdir w p = false ->
  endswith_slash p = false ->
  OS.open_error w p = Some what ->
  do_GET (cls := Handler s) pf w h = Raise (ValueError what)
  /\ do_HEAD (cls := Handler s) pf w h = Raise (ValueError what).
Proof.
  intros Tp D Sl Oe.
  assert (Sh : send_head (cls := Handler s) pf w h = Raise (ValueError what)).
  { unfold send_head. rewrite bind_self.
    rewrite (bind_ok _ _ _ _ _ Tp). cbv beta zeta.
    rewrite D, Sl. unfold OS.open_rb. rewrite Oe. reflexivity. }
  unfold do_GET, do_HEAD, HttpServer.bind. rewrite Sh. split; reflexivity.
Qed.

(** X10 on [GET /<NUL> HTTP/1.1] sent to [preview-server.py] in the
    sample checkout: the serve loop reports the exception, sends nothing
    on that connection and answers the next one. *)
Lemma unopenable_path_is_not_answered_witness :
  do_GET (cls := Handler preview_server) pf_demo site
    (set_path ("/" ++ String "000" "")
       (set_command (Some "GET")
          (set_request_version "HTTP/1.1"
             (new_handler (cls := Handler preview_server)))))
  = Raise (ValueError "embedded null byte")
  /\ replies preview_server pf_demo site
       [[get_nul_http11]; [get_index_http09]]
     = [HandlerError (ValueError "embedded null byte");
        Response "<h1>Resume</h1>"].
Proof.
  split; [| vm_compute; reflexivity].
  apply (unopenable_path_is_not_answered preview_server pf_demo site
           (set_path ("/" ++ String "000" "")
              (set_command (Some "GET")
                 (set_request_version "HTTP/1.1"
                    (new_handler (cls := Handler preview_server)))))
           ("public/" ++ String "000" "") "embedded null byte");
    reflexivity.
Defined.

(** X11. When the server is bound but the console refuses the first
    line of the banner (an ASCII console and the rocket sign, or Ctrl+C
    at that moment), the exception leaves the [with] statement, which
    closes the socket: nothing is printed, the browser is not opened, no
    request is served, and the process ends on that exception. *)
Theorem refused_banner_closes_the_socket
  (s : script) (pf : platform) (w : OS.world) (events : list event)
  (e : exn) :
  OS.path_exists w (DIRECTORY s) = true ->
  OS.bind_error w (PORT s) = None ->
  OS.stdout_error w (hd "" (banner s w)) = Some e ->
  run (main s pf w events)
  = ([SocketCreate; SocketBind "" (PORT s); SocketListen; SocketClose;
      Traceback e], ended_by e).
Proof.
  intros E B R. destruct s; cbn [main DIRECTORY PORT banner hd] in *;
    [unfold PreviewServer.main | unfold PreviewAws.main];
    rewrite E; cbn [negb];
    rewrite TCPServer_init_ok by exact B;
    rewrite with_server_close; cbv beta zeta;
    rewrite (print_refused w _ e) by exact R;
    destruct e; reflexivity.
Qed.

(** X11 on [preview-server.py] in the sample checkout, on a console
    whose encoding is ASCII. *)
Lemma refused_banner_closes_the_socket_witness :
  run (main preview_server pf_demo (ascii_console site)
         [Connection [get_index_http11]; Interrupt])
  = ([SocketCreate; SocketBind "" 8080; SocketListen; SocketClose;
      Traceback (ValueError "'ascii' codec can't encode character")],
     Exited 1).
Proof.
  apply (refused_banner_closes_the_socket preview_server pf_demo
           (ascii_console site) [Connection [get_index_http11]; Interrupt]
           (ValueError "'ascii' codec can't encode character"));
    reflexivity.
Defined.
